(** * Biathlon_data: the time codec of [tools.py] and the fetcher of
    [biathlon_api.py]

    A shallow embedding of the two Python modules of the repository and the
    properties their specification states about them.

    Modelling conventions.
    - A Python [int] is a [Z] (unbounded).  [//] and [%] with a positive
      divisor are [Z.div] and [Z.modulo] (both round towards minus infinity).
    - A Python [str] is a [string]; each [ascii] stands for the code point of
      the same number, so the model covers the strings whose code points are
      below 256.
    - A raised exception is the [Raise] case of [result]; [try]/[except] is a
      [match] on it.
    - The built-ins the code calls ([str.split], [int], the [f]-string
      conversions of an [int]) are written out below from their CPython
      behaviour; the messages of the errors the built-ins raise are
      shortened (the handlers replace them).
    - Two features of the interpreter are added on top, where a property
      depends on them: the limit on the number of digits of a converted
      integer ([time_conversion2_limited], [int_limited]) and strings of
      arbitrary code points, with the white space and decimal digits of
      Unicode ([time_conversion_unicode]).  On an ASCII string within the
      limit they change nothing ([time_conversion_unicode_codes]). *)

From Stdlib Require Import ZArith List String Ascii Bool Lia.
Import ListNotations.

Local Open Scope list_scope.
Local Open Scope string_scope.
Local Open Scope Z_scope.

(** ** Exceptions and results *)

(** An exception object, as far as the handlers of this code can tell them
    apart: whether it is an instance of [requests.exceptions.RequestException],
    whether it is an instance of [ValueError], and its message. *)
Record exn : Type := Exn {
  is_RequestException : bool;
  is_ValueError : bool;
  message : string
}.

(** [ValueError(msg)] and [requests.exceptions.RequestException(msg)]. *)
Definition ValueError (msg : string) : exn := Exn false true msg.
Definition RequestException (msg : string) : exn := Exn true false msg.

Inductive result (A : Type) : Type :=
| Ok (a : A)
| Raise (e : exn).

Arguments Ok {A} a.
Arguments Raise {A} e.

Definition bind {A B : Type} (r : result A) (k : A -> result B) : result B :=
  match r with
  | Ok a => k a
  | Raise e => Raise e
  end.

Notation "x <- r ;; k" := (bind r (fun x => k))
  (at level 61, r at next level, right associativity).
Notation "' p <- r ;; k" := (bind r (fun v => let p := v in k))
  (at level 61, p pattern, r at next level, right associativity).

(** Every character of a string satisfies [P]. *)
Fixpoint all_chars (P : ascii -> bool) (s : string) : bool :=
  match s with
  | EmptyString => true
  | String c r => P c && all_chars P r
  end.

(** ** Python built-ins used by the code *)

Module Py.

(** Code point of a character. *)
Definition ord (c : ascii) : Z := Z.of_N (N_of_ascii c).

Definition chr (z : Z) : ascii := ascii_of_N (Z.to_N z).

Definition is_digit (c : ascii) : bool :=
  (48 <=? ord c) && (ord c <=? 57).

(** The characters [int] skips around a literal: the six ASCII white-space
    characters, and the two white-space code points of the range 128..255
    (NEL and the no-break space). *)
Definition is_space (c : ascii) : bool :=
  let n := ord c in
  ((9 <=? n) && (n <=? 13)) || (n =? 32) || (n =? 133) || (n =? 160).

Definition is_underscore (c : ascii) : bool := ord c =? 95.

(** [s.split(sep)] for a one-character separator: the pieces between the
    occurrences of [sep], empty pieces included; never the empty list. *)
Fixpoint split (sep : ascii) (s : string) : list string :=
  match s with
  | EmptyString => [EmptyString]
  | String c r =>
      if Ascii.eqb c sep then EmptyString :: split sep r
      else match split sep r with
           | h :: t => String c h :: t
           | [] => [String c EmptyString]
           end
  end.

(** [a, b = l]: unpacking into two targets raises [ValueError] unless the
    list has exactly two elements. *)
Definition unpack2 (l : list string) : result (string * string) :=
  match l with
  | [a; b] => Ok (a, b)
  | [] | [_] => Raise (ValueError "not enough values to unpack (expected 2)")
  | _ => Raise (ValueError "too many values to unpack (expected 2)")
  end.

(** *** [int(s)] in base 10 *)

Fixpoint lstrip (s : string) : string :=
  match s with
  | EmptyString => EmptyString
  | String c r => if is_space c then lstrip r else s
  end.

Definition all_space (s : string) : bool := all_chars is_space s.

(** The digit loop: digits accumulate in [acc]; a single underscore is
    allowed between two digits; the loop stops at the first other character
    and returns the value with the rest of the string.  [prev_us] records
    that the previous character was an underscore. *)
Fixpoint scan_digits (s : string) (prev_us : bool) (acc : Z)
  : option (Z * string) :=
  match s with
  | EmptyString => if prev_us then None else Some (acc, EmptyString)
  | String c r =>
      if is_underscore c then
        if prev_us then None else scan_digits r true acc
      else if is_digit c then
        scan_digits r false (10 * acc + (ord c - 48))
      else if prev_us then None else Some (acc, s)
  end.

(** A literal starts with a digit (neither empty nor a leading underscore). *)
Definition unsigned_literal (sign : Z) (body : string) : option (Z * string) :=
  match body with
  | String c _ =>
      if is_digit c then
        match scan_digits body false 0 with
        | Some (v, rest) => Some (sign * v, rest)
        | None => None
        end
      else None
  | EmptyString => None
  end.

(** An optional sign in front of the literal. *)
Definition signed_literal (s : string) : option (Z * string) :=
  match s with
  | String c r =>
      if Ascii.eqb c "+" then unsigned_literal 1 r
      else if Ascii.eqb c "-" then unsigned_literal (-1) r
      else unsigned_literal 1 s
  | EmptyString => None
  end.

Definition parse_int (s : string) : option Z :=
  match signed_literal (lstrip s) with
  | Some (v, rest) => if all_space rest then Some v else None
  | None => None
  end.

Definition int (s : string) : result Z :=
  match parse_int s with
  | Some v => Ok v
  | None => Raise (ValueError "invalid literal for int() with base 10")
  end.

(** *** [str(n)] and the format specification [02d] *)

Definition digit_char (d : Z) : ascii := chr (48 + d).

(** Decimal digits of a non-negative number, most significant first, put in
    front of [acc].  [fuel] bounds the number of digits. *)
Fixpoint digits_acc (fuel : nat) (n : Z) (acc : string) : string :=
  match fuel with
  | O => acc
  | S f =>
      let acc' := String (digit_char (n mod 10)) acc in
      if n <? 10 then acc' else digits_acc f (n / 10) acc'
  end.

(** A number below [2^k] has at most [k] decimal digits (and at least one). *)
Definition digits (n : Z) : string :=
  digits_acc (S (Z.to_nat (Z.log2 n))) n EmptyString.

Definition str (n : Z) : string :=
  if n <? 0 then String "-" (digits (- n)) else digits n.

Fixpoint zeros (k : nat) : string :=
  match k with
  | O => EmptyString
  | S k' => String "0" (zeros k')
  end.

(** [format(n, "0{width}d")]: the sign first, then zeros up to [width]
    characters in all, then the digits. *)
Definition format_0d (width : nat) (n : Z) : string :=
  let sign := if n <? 0 then "-" else "" in
  let ds := digits (Z.abs n) in
  sign ++ zeros (width - String.length sign - String.length ds) ++ ds.

End Py.

(** ** [tools.py] *)

Definition msg_invalid_format : string := "Invalid time format.".
Definition msg_seconds_tenths : string :=
  "Invalid time format: seconds must be between 0 and 59, and tenths between 0 and 9.".
Definition msg_minutes : string :=
  "Invalid time format: minutes must be between 0 and 59.".
Definition msg_hours : string :=
  "Invalid time format: hours cannot be negative.".
Definition msg_uniform : string :=
  "Invalid time format. Use the format '(hours:minutes:)seconds.tenth' with numeric values.".

(** The first [if]/[elif] chain of [time_conversion]: hours, minutes and the
    text of the last segment, by the number of colon-separated parts. *)
Definition segments (parts : list string) : result (Z * Z * string) :=
  match parts with
  | [hours_str; minutes_str; seconds_tenth_str] =>
      hours <- Py.int hours_str ;;
      minutes <- Py.int minutes_str ;;
      Ok (hours, minutes, seconds_tenth_str)
  | [minutes_str; seconds_tenth_str] =>
      minutes <- Py.int minutes_str ;;
      Ok (0, minutes, seconds_tenth_str)
  | [seconds_tenth_str] =>
      Ok (0, 0, seconds_tenth_str)
  | _ => Raise (ValueError msg_invalid_format)
  end.

(** The three range checks, in the order of the code, and the result. *)
Definition range_checks (hours minutes seconds tenth : Z) : result Z :=
  if (seconds <? 0) || (seconds >=? 60) || (tenth <? 0) || (tenth >=? 10)
  then Raise (ValueError msg_seconds_tenths)
  else if (minutes <? 0) || (minutes >=? 60)
  then Raise (ValueError msg_minutes)
  else if hours <? 0
  then Raise (ValueError msg_hours)
  else
    let total_time_in_tenth :=
      hours * 36000 + minutes * 600 + seconds * 10 + tenth in
    Ok total_time_in_tenth.

(** The body of the [try] block. *)
Definition time_conversion_try (time_str : string) : result Z :=
  let parts := Py.split ":" time_str in
  '(hours, minutes, seconds_tenth_str) <- segments parts ;;
  '(seconds_str, tenth_str) <- Py.unpack2 (Py.split "." seconds_tenth_str) ;;
  seconds <- Py.int seconds_str ;;
  tenth <- Py.int tenth_str ;;
  range_checks hours minutes seconds tenth.

(** [time_conversion]: the [try] block under its handler, which turns every
    [ValueError] into one with the fixed message; any other exception
    propagates. *)
Definition time_conversion (time_str : string) : result Z :=
  match time_conversion_try time_str with
  | Ok v => Ok v
  | Raise e =>
      if is_ValueError e then Raise (ValueError msg_uniform) else Raise e
  end.

(** [time_conversion2]; [int(...)] of an [int] is the identity. *)
Definition time_conversion2 (total_time_in_tenth : Z) : string :=
  let minutes := total_time_in_tenth / 600 in
  let seconds := (total_time_in_tenth mod 600) / 10 in
  let tenth := total_time_in_tenth mod 10 in
  if minutes >? 0
  then Py.str minutes ++ ":" ++ Py.format_0d 2 seconds ++ "." ++ Py.str tenth
  else Py.str seconds ++ "." ++ Py.str tenth.

(** ** [biathlon_api.py] *)

Definition get_url_analytics (Race_Id Type_Id : string) : string :=
  (("https://www.biathlonresults.com/modules/sportapi/api/AnalyticResults?RaceId="
      ++ Race_Id) ++ "&TypeId=") ++ Type_Id.

Definition get_url_results (Race_Id : string) : string :=
  "https://www.biathlonresults.com/modules/sportapi/api/Results?RT=385698&RaceId="
    ++ Race_Id.

Definition get_url_calendar (season : string) : string :=
  ("https://www.biathlonresults.com/modules/sportapi/api/Events?RT=385698&SeasonId="
     ++ season) ++ "&Level=-1".

Definition get_url_event (Event_Id : string) : string :=
  "https://www.biathlonresults.com/modules/sportapi/api/Competitions?RT=385698&EventId="
    ++ Event_Id.

(** What [get_json] sees of a [requests.Response]: the status code and the
    body. *)
Record Response : Type := {
  status_code : Z;
  content : string
}.

(** [Response.raise_for_status()] of the [requests] library: an
    [HTTPError], which is a [RequestException] and not a [ValueError], for
    the client-error and server-error statuses 400..599, and nothing
    otherwise. *)
Definition raise_for_status (answer : Response) : result unit :=
  let code := status_code answer in
  if (400 <=? code) && (code <? 500)
  then Raise (Exn true false "Client Error")
  else if (500 <=? code) && (code <? 600)
  then Raise (Exn true false "Server Error")
  else Ok tt.

(** The statuses [raise_for_status] rejects. *)
Definition rejected_status (answer : Response) : bool :=
  (400 <=? status_code answer) && (status_code answer <? 600).

Section Fetch.

(** The decoded JSON values, the network behind [requests.get] and the
    decoder behind [Response.json()] are left open: [get_json] is
    embedded for every choice of them. *)
Variable JSON : Type.
Variable requests_get : string -> result Response.
Variable response_json : Response -> result JSON.

(** The body of the [try] block. *)
Definition get_json_try (url : string) : result JSON :=
  answer <- requests_get url ;;
  _ <- raise_for_status answer ;;
  text <- response_json answer ;;
  Ok text.

(** [get_json]: the first [except] clause that matches the exception
    handles it; an exception neither clause matches propagates. *)
Definition get_json (url : string) : result JSON :=
  match get_json_try url with
  | Ok text => Ok text
  | Raise e =>
      if is_RequestException e
      then Raise (RequestException ("Request error: " ++ message e))
      else if is_ValueError e
      then Raise (ValueError "The response is not valid JSON.")
      else Raise e
  end.

End Fetch.

Arguments get_json {JSON} requests_get response_json url.
Arguments get_json_try {JSON} requests_get response_json url.

(** ** Notions of the specification *)

(** The integer a time value stands for. *)
Definition encode (h m s t : Z) : Z := h * 36000 + m * 600 + s * 10 + t.

(** The four numbers a time string is read as: the colon-separated
    segments, hours and minutes being 0 when their segment is absent, and the
    last segment cut at its dot.  No range is checked here. *)
Definition time_fields (s : string) : option (Z * Z * Z * Z) :=
  let last_segment (h m : Z) (st : string) :=
    match Py.split "." st with
    | [ss; ts] =>
        match Py.parse_int ss, Py.parse_int ts with
        | Some sec, Some t => Some (h, m, sec, t)
        | _, _ => None
        end
    | _ => None
    end in
  match Py.split ":" s with
  | [st] => last_segment 0 0 st
  | [ms; st] =>
      match Py.parse_int ms with
      | Some m => last_segment 0 m st
      | None => None
      end
  | [hs; ms; st] =>
      match Py.parse_int hs, Py.parse_int ms with
      | Some h, Some m => last_segment h m st
      | _, _ => None
      end
  | _ => None
  end.





Definition last_segment (s : string) : string :=
  List.last (Py.split ":" s) EmptyString.













(** The output of format as the specification words it: the fields, and
    seconds written with exactly two digit characters after a minutes
    field. *)
Definition one_digit (d : Z) : string := String (Py.digit_char d) EmptyString.

Definition two_digits (v : Z) : string :=
  String (Py.digit_char (v / 10)) (one_digit (v mod 10)).

Definition unpadded (v : Z) : string :=
  if v <? 10 then one_digit v else two_digits v.

Definition format_spec (n : Z) : string :=
  let minutes := n / 600 in
  let seconds := (n mod 600) / 10 in
  let tenths := n mod 10 in
  if 0 <? minutes
  then Py.str minutes ++ ":" ++ two_digits seconds ++ "." ++ one_digit tenths
  else unpadded seconds ++ "." ++ one_digit tenths.

(** A time value of the data model, and its canonical string: the fewest
    segments, that is, no hours segment when hours is 0 and no minutes
    segment either when minutes is 0 as well; fields after the first are
    written with two digits. *)
Record TimeValue : Type := {
  tv_hours : Z;
  tv_minutes : Z;
  tv_seconds : Z;
  tv_tenths : Z
}.

Definition valid_time (v : TimeValue) : bool :=
  (0 <=? tv_hours v)
  && (0 <=? tv_minutes v) && (tv_minutes v <=? 59)
  && (0 <=? tv_seconds v) && (tv_seconds v <=? 59)
  && (0 <=? tv_tenths v) && (tv_tenths v <=? 9).

Definition time_value (v : TimeValue) : Z :=
  encode (tv_hours v) (tv_minutes v) (tv_seconds v) (tv_tenths v).

Definition canonical (v : TimeValue) : string :=
  if 0 <? tv_hours v
  then Py.str (tv_hours v) ++ ":" ++ two_digits (tv_minutes v) ++ ":"
       ++ two_digits (tv_seconds v) ++ "." ++ one_digit (tv_tenths v)
  else if 0 <? tv_minutes v
  then Py.str (tv_minutes v) ++ ":" ++ two_digits (tv_seconds v) ++ "."
       ++ one_digit (tv_tenths v)
  else Py.str (tv_seconds v) ++ "." ++ one_digit (tv_tenths v).

(** No occurrence of [sep]. *)
Definition without (sep : ascii) (s : string) : bool :=
  all_chars (fun c => negb (Ascii.eqb c sep)) s.

Definition is_separator (c : ascii) : bool :=
  Ascii.eqb c ":" || Ascii.eqb c ".".

(** The characters the specification allows in a time string. *)
Definition digit_or_separator (c : ascii) : bool :=
  Py.is_digit c || is_separator c.

(** The characters the code tolerates besides, those [int] accepts around
    and inside a literal: white space, a sign, an underscore. *)
Definition tolerated_by_int (c : ascii) : bool :=
  Py.is_space c || Ascii.eqb c "+" || Ascii.eqb c "-" || Py.is_underscore c.

Definition int_char (c : ascii) : bool :=
  Py.is_digit c || tolerated_by_int c.

Definition accepted_char (c : ascii) : bool :=
  digit_or_separator c || tolerated_by_int c.

(** [pat in s]. *)
Fixpoint contains (pat s : string) : bool :=
  String.prefix pat s
  || match s with
     | EmptyString => false
     | String _ r => contains pat r
     end.

Definition api_base : string :=
  "https://www.biathlonresults.com/modules/sportapi/api/".

Definition rt_constant : string := "RT=385698".

(** The number of occurrences of [c] in [s]. *)
Fixpoint count_char (c : ascii) (s : string) : nat :=
  match s with
  | EmptyString => O
  | String d r =>
      if Ascii.eqb d c then S (count_char c r) else count_char c r
  end.

(** ** The interpreter's conversion limit *)

(** CPython 3.11 and later refuse to convert between [int] and [str] a
    numeral of more than [sys.get_int_max_str_digits()] digits, 4300 unless
    it is changed; the value 0 switches the limit off, and the interpreter
    admits no other value below 640.  [Py.int] and [Py.str] above are the
    conversions without the limit; the definitions of this section put the
    limit in front of them. *)
Definition default_max_str_digits : nat := 4300.

(** No limit the interpreter admits applies to a numeral of this size. *)
Definition limit_threshold : nat := 640.

Definition msg_limit : string :=
  "Exceeds the limit for integer string conversion".

(** The digit characters of the longest prefix made of digits and
    underscores: the digits the loop of [int] scans. *)
Fixpoint leading_digits (s : string) : nat :=
  match s with
  | EmptyString => O
  | String c r =>
      if Py.is_digit c then S (leading_digits r)
      else if Py.is_underscore c then leading_digits r
      else O
  end.

Definition skip_sign (s : string) : string :=
  match s with
  | String c r => if Ascii.eqb c "+" || Ascii.eqb c "-" then r else s
  | EmptyString => EmptyString
  end.

Section ConversionLimit.

Variable max_str_digits : nat.

Definition exceeds_limit (ndigits : nat) : bool :=
  (0 <? max_str_digits)%nat && (max_str_digits <? ndigits)%nat.

(** [str(n)] and [format(n, "0{width}d")]: the limit is on the digits, the
    sign not counted. *)
Definition str_limited (n : Z) : result string :=
  if exceeds_limit (String.length (Py.digits (Z.abs n)))
  then Raise (ValueError msg_limit)
  else Ok (Py.str n).

Definition format_0d_limited (width : nat) (n : Z) : result string :=
  if exceeds_limit (String.length (Py.digits (Z.abs n)))
  then Raise (ValueError msg_limit)
  else Ok (Py.format_0d width n).

(** [time_conversion2] under the limit: the replacement fields of the
    [f]-string are converted from left to right. *)
Definition time_conversion2_limited (total_time_in_tenth : Z)
  : result string :=
  let minutes := total_time_in_tenth / 600 in
  let seconds := (total_time_in_tenth mod 600) / 10 in
  let tenth := total_time_in_tenth mod 10 in
  if minutes >? 0
  then
    m <- str_limited minutes ;;
    s <- format_0d_limited 2 seconds ;;
    t <- str_limited tenth ;;
    Ok (m ++ ":" ++ s ++ "." ++ t)
  else
    s <- str_limited seconds ;;
    t <- str_limited tenth ;;
    Ok (s ++ "." ++ t).

(** [int(s)] on an ASCII buffer under the limit: the digits are scanned
    and counted, the limit is checked, and only then is the rest of the
    buffer looked at. *)
Definition int_limited (s : string) : result Z :=
  match Py.signed_literal (Py.lstrip s) with
  | Some (v, rest) =>
      if exceeds_limit (leading_digits (skip_sign (Py.lstrip s)))
      then Raise (ValueError msg_limit)
      else if Py.all_space rest then Ok v
      else Raise (ValueError "invalid literal for int() with base 10")
  | None => Raise (ValueError "invalid literal for int() with base 10")
  end.

End ConversionLimit.

(** ** Strings of arbitrary code points *)

(** A Python [str] in full is a list of code points.  [int] first rewrites
    it to ASCII, with the white space and the decimal digits of Unicode
    replaced by a blank and by the ASCII digit of the same value; the two
    classes are tables of the interpreter's Unicode database and are left
    open here, as is the conversion limit. *)
Section Unicode.

Variable max_str_digits : nat.
Variable unicode_space : N -> bool.
Variable unicode_decimal : N -> option Z.

Definition is_ascii_string (u : list N) : bool :=
  forallb (fun ch => ch <? 128)%N u.

Definition ascii_of_codes (u : list N) : string :=
  fold_right (fun ch r => String (ascii_of_N ch) r) EmptyString u.

(** The rewriting loop, for a string that is not all ASCII: a code point
    of neither class ends the buffer with ['?']. *)
Fixpoint transform (u : list N) : string :=
  match u with
  | [] => EmptyString
  | ch :: r =>
      if (ch <? 127)%N then String (ascii_of_N ch) (transform r)
      else if unicode_space ch then String " " (transform r)
      else match unicode_decimal ch with
           | Some d => String (Py.digit_char d) (transform r)
           | None => "?"
           end
  end.

(** An all-ASCII string is taken as it is. *)
Definition to_ascii (u : list N) : string :=
  if is_ascii_string u then ascii_of_codes u else transform u.

Definition int_unicode (u : list N) : result Z :=
  int_limited max_str_digits (to_ascii u).

(** [s.split(sep)] on code points. *)
Fixpoint split_codes (sep : N) (u : list N) : list (list N) :=
  match u with
  | [] => [[]]
  | ch :: r =>
      if (ch =? sep)%N then [] :: split_codes sep r
      else match split_codes sep r with
           | h :: t => (ch :: h) :: t
           | [] => [[ch]]
           end
  end.

Definition unpack2_codes (l : list (list N))
  : result (list N * list N) :=
  match l with
  | [a; b] => Ok (a, b)
  | [] | [_] => Raise (ValueError "not enough values to unpack (expected 2)")
  | _ => Raise (ValueError "too many values to unpack (expected 2)")
  end.

Definition segments_unicode (parts : list (list N))
  : result (Z * Z * list N) :=
  match parts with
  | [hours_str; minutes_str; seconds_tenth_str] =>
      hours <- int_unicode hours_str ;;
      minutes <- int_unicode minutes_str ;;
      Ok (hours, minutes, seconds_tenth_str)
  | [minutes_str; seconds_tenth_str] =>
      minutes <- int_unicode minutes_str ;;
      Ok (0, minutes, seconds_tenth_str)
  | [seconds_tenth_str] =>
      Ok (0, 0, seconds_tenth_str)
  | _ => Raise (ValueError msg_invalid_format)
  end.

(** [time_conversion] on a string of arbitrary code points: [58] is [':']
    and [46] is ['.']. *)
Definition time_conversion_unicode_try (time_str : list N) : result Z :=
  let parts := split_codes 58 time_str in
  '(hours, minutes, seconds_tenth_str) <- segments_unicode parts ;;
  '(seconds_str, tenth_str)
     <- unpack2_codes (split_codes 46 seconds_tenth_str) ;;
  seconds <- int_unicode seconds_str ;;
  tenth <- int_unicode tenth_str ;;
  range_checks hours minutes seconds tenth.

Definition time_conversion_unicode (time_str : list N) : result Z :=
  match time_conversion_unicode_try time_str with
  | Ok v => Ok v
  | Raise e =>
      if is_ValueError e then Raise (ValueError msg_uniform) else Raise e
  end.

(** The code points [int] can read: the ASCII digits and the ASCII
    characters it tolerates, and beyond ASCII the white space and the
    decimal digits of Unicode. *)
Definition int_code_point (ch : N) : bool :=
  ((ch <? 128)%N && int_char (ascii_of_N ch))
  || ((127 <=? ch)%N
      && (unicode_space ch
          || match unicode_decimal ch with Some _ => true | None => false end)).

(** The code points of an accepted time string: those and the two
    separators. *)
Definition accepted_code_point (ch : N) : bool :=
  int_code_point ch || (ch =? 58)%N || (ch =? 46)%N.

End Unicode.

(** The code points of an 8-bit string. *)
Definition codes (s : string) : list N :=
  List.map N_of_ascii (list_ascii_of_string s).

(** An 8-bit string that is all ASCII, and the number of its digit
    characters. *)
Definition is_ascii_text (s : string) : bool :=
  all_chars (fun c => (N_of_ascii c <? 128)%N) s.

Fixpoint digit_count (s : string) : nat :=
  match s with
  | EmptyString => O
  | String c r =>
      if Py.is_digit c then S (digit_count r) else digit_count r
  end.

(** An ASCII string with no more digits than the limit: on such a string
    the limit and the rewriting to ASCII change nothing. *)
Definition plain_text (max_str_digits : nat) (s : string) : Prop :=
  is_ascii_text s = true
  /\ (max_str_digits = O \/ (digit_count s <= max_str_digits)%nat).

(** ** Characters *)

Section Characters.

Lemma ord_range (c : ascii) : 0 <= Py.ord c < 256.
Proof.
  unfold Py.ord. pose proof (N_ascii_bounded c). lia.
Qed.

Lemma ord_chr (z : Z) : 0 <= z < 256 -> Py.ord (Py.chr z) = z.
Proof.
  intros Hz. unfold Py.ord, Py.chr.
  rewrite N_ascii_embedding by lia. lia.
Qed.

Lemma ord_inj (c d : ascii) : Py.ord c = Py.ord d -> c = d.
Proof.
  unfold Py.ord. intros H.
  rewrite <- (ascii_N_embedding c), <- (ascii_N_embedding d).
  f_equal. lia.
Qed.

Lemma eqb_ord (c d : ascii) : Ascii.eqb c d = (Py.ord c =? Py.ord d).
Proof.
  destruct (Ascii.eqb_spec c d) as [->|Hne].
  - symmetry. apply Z.eqb_refl.
  - symmetry. apply Z.eqb_neq. intros H. apply Hne, ord_inj, H.
Qed.

Lemma ord_digit_char (d : Z) :
  0 <= d < 10 -> Py.ord (Py.digit_char d) = 48 + d.
Proof.
  intros Hd. unfold Py.digit_char. apply ord_chr. lia.
Qed.

Lemma is_digit_spec (c : ascii) :
  Py.is_digit c = true <-> 48 <= Py.ord c <= 57.
Proof.
  unfold Py.is_digit. rewrite andb_true_iff, !Z.leb_le. tauto.
Qed.

Lemma is_digit_digit_char (d : Z) :
  0 <= d < 10 -> Py.is_digit (Py.digit_char d) = true.
Proof.
  intros Hd. apply is_digit_spec. rewrite ord_digit_char by assumption. lia.
Qed.

Lemma digit_not_space (c : ascii) :
  Py.is_digit c = true -> Py.is_space c = false.
Proof.
  rewrite is_digit_spec. intros H. unfold Py.is_space. cbv zeta.
  repeat (apply orb_false_intro); try (apply Z.eqb_neq; lia).
  apply andb_false_iff. right. apply Z.leb_gt. lia.
Qed.

Lemma digit_not_underscore (c : ascii) :
  Py.is_digit c = true -> Py.is_underscore c = false.
Proof.
  rewrite is_digit_spec. intros H. unfold Py.is_underscore.
  apply Z.eqb_neq. lia.
Qed.

(** A digit is none of the characters [+], [-], [.], [:]. *)
Lemma digit_not_char (c d : ascii) :
  Py.is_digit c = true -> Py.is_digit d = false -> Ascii.eqb c d = false.
Proof.
  intros Hc Hd. destruct (Ascii.eqb_spec c d) as [->|]; congruence.
Qed.

End Characters.

(** ** Decimal digits *)

Section Digits.

Lemma append_assoc (a b c : string) : (a ++ b) ++ c = a ++ (b ++ c).
Proof.
  induction a as [|x a IH]; simpl; [reflexivity|]. rewrite IH. reflexivity.
Qed.

Lemma all_chars_app (P : ascii -> bool) (a b : string) :
  all_chars P (a ++ b) = all_chars P a && all_chars P b.
Proof.
  induction a as [|c a IH]; simpl.
  - reflexivity.
  - rewrite IH. apply andb_assoc.
Qed.

Lemma all_chars_impl (P Q : ascii -> bool) (s : string) :
  (forall c, P c = true -> Q c = true) ->
  all_chars P s = true -> all_chars Q s = true.
Proof.
  intros HPQ. induction s as [|c s IH]; simpl.
  - reflexivity.
  - rewrite !andb_true_iff. intros [Hc Hs]. auto.
Qed.

Lemma digits_acc_all_digits (fuel : nat) :
  forall n acc,
    0 <= n ->
    all_chars Py.is_digit acc = true ->
    all_chars Py.is_digit (Py.digits_acc fuel n acc) = true.
Proof.
  induction fuel as [|f IH]; intros n acc Hn Hacc; simpl.
  - assumption.
  - assert (Hd : all_chars Py.is_digit
                   (String (Py.digit_char (n mod 10)) acc) = true).
    { simpl. rewrite Hacc, is_digit_digit_char; [reflexivity|].
      apply Z.mod_pos_bound. lia. }
    destruct (n <? 10).
    + exact Hd.
    + apply IH; [|exact Hd]. apply Z.div_pos; lia.
Qed.

Lemma digits_acc_app (fuel : nat) :
  forall n acc,
    Py.digits_acc fuel n acc = Py.digits_acc fuel n EmptyString ++ acc.
Proof.
  induction fuel as [|f IH]; intros n acc; simpl.
  - reflexivity.
  - destruct (n <? 10).
    + reflexivity.
    + rewrite IH.
      rewrite (IH (n / 10) (String (Py.digit_char (n mod 10)) EmptyString)).
      rewrite append_assoc. reflexivity.
Qed.

Lemma digits_acc_nonempty (fuel : nat) :
  forall n acc, acc <> EmptyString -> Py.digits_acc fuel n acc <> EmptyString.
Proof.
  induction fuel as [|f IH]; intros n acc Hacc; simpl.
  - assumption.
  - destruct (n <? 10); [discriminate|]. apply IH. discriminate.
Qed.

Lemma digits_all_digits (n : Z) :
  0 <= n -> all_chars Py.is_digit (Py.digits n) = true.
Proof.
  intros Hn. unfold Py.digits. apply digits_acc_all_digits; auto.
Qed.

(** The decimal numeral of a number starts with a digit. *)
Lemma digits_starts (n : Z) :
  0 <= n ->
  exists c r, Py.digits n = String c r /\ Py.is_digit c = true.
Proof.
  intros Hn. pose proof (digits_all_digits n Hn) as Hall.
  assert (Hne : Py.digits n <> EmptyString).
  { unfold Py.digits. simpl. destruct (n <? 10); [discriminate|].
    apply digits_acc_nonempty. discriminate. }
  destruct (Py.digits n) as [|c r]; [congruence|].
  exists c, r. split; [reflexivity|].
  simpl in Hall. apply andb_true_iff in Hall. tauto.
Qed.

Lemma scan_digits_digit (c : ascii) (r : string) (acc : Z) :
  Py.is_digit c = true ->
  Py.scan_digits (String c r) false acc
  = Py.scan_digits r false (10 * acc + (Py.ord c - 48)).
Proof.
  intros Hc. simpl. rewrite digit_not_underscore, Hc by assumption.
  reflexivity.
Qed.

(** Reading back the digits that [digits_acc] wrote gives the number. *)
Lemma scan_digits_acc (fuel : nat) :
  forall n acc,
    0 <= n < 10 ^ Z.of_nat fuel ->
    Py.scan_digits (Py.digits_acc fuel n acc) false 0
    = Py.scan_digits acc false n.
Proof.
  induction fuel as [|f IH]; intros n acc Hn.
  - simpl in *. replace n with 0 by lia. reflexivity.
  - assert (Hm : 0 <= n mod 10 < 10) by (apply Z.mod_pos_bound; lia).
    assert (Hstep : forall a,
               Py.scan_digits (String (Py.digit_char (n mod 10)) acc) false a
               = Py.scan_digits acc false (10 * a + n mod 10)).
    { intros a. rewrite scan_digits_digit
        by (apply is_digit_digit_char; exact Hm).
      rewrite ord_digit_char by exact Hm. f_equal. lia. }
    simpl Py.digits_acc. destruct (Z.ltb_spec n 10) as [Hlt|Hge].
    + rewrite Hstep. f_equal. rewrite Z.mod_small by lia. lia.
    + rewrite IH.
      * rewrite Hstep. f_equal.
        pose proof (Z.div_mod n 10). lia.
      * rewrite Nat2Z.inj_succ, Z.pow_succ_r in Hn by lia.
        split; [apply Z.div_pos; lia|].
        apply Z.div_lt_upper_bound; lia.
Qed.

Lemma digits_fuel (n : Z) :
  0 <= n -> n < 10 ^ Z.of_nat (S (Z.to_nat (Z.log2 n))).
Proof.
  intros Hn. rewrite Nat2Z.inj_succ, Z2Nat.id by apply Z.log2_nonneg.
  destruct (Z.eq_dec n 0) as [->|Hnz].
  - reflexivity.
  - pose proof (Z.log2_spec n ltac:(lia)) as [_ Hup].
    eapply Z.lt_le_trans; [exact Hup|].
    apply Z.pow_le_mono_l. pose proof (Z.log2_nonneg n). lia.
Qed.

Lemma scan_digits_digits (n : Z) :
  0 <= n ->
  Py.scan_digits (Py.digits n) false 0 = Some (n, EmptyString).
Proof.
  intros Hn. unfold Py.digits.
  rewrite scan_digits_acc by (split; [exact Hn|apply digits_fuel, Hn]).
  reflexivity.
Qed.

Lemma all_chars_zeros (k : nat) : all_chars Py.is_digit (Py.zeros k) = true.
Proof.
  induction k as [|k IH]; simpl; [reflexivity|exact IH].
Qed.

Lemma scan_digits_zeros (k : nat) (s : string) :
  Py.scan_digits (Py.zeros k ++ s) false 0 = Py.scan_digits s false 0.
Proof.
  induction k as [|k IH]; simpl; [reflexivity|exact IH].
Qed.

(** [int] reads an unsigned numeral, padded with zeros or not. *)
Lemma parse_int_numeral (s : string) (v : Z) :
  (exists c r, s = String c r /\ Py.is_digit c = true) ->
  Py.scan_digits s false 0 = Some (v, EmptyString) ->
  Py.parse_int s = Some v.
Proof.
  intros (c & r & -> & Hc) Hscan. unfold Py.parse_int.
  simpl Py.lstrip. rewrite digit_not_space by exact Hc.
  unfold Py.signed_literal.
  rewrite !(digit_not_char c) by (exact Hc || reflexivity).
  unfold Py.unsigned_literal. rewrite Hc, Hscan.
  change (Py.all_space EmptyString) with true. cbv iota. f_equal. lia.
Qed.

Lemma parse_int_digits (n : Z) :
  0 <= n -> Py.parse_int (Py.digits n) = Some n.
Proof.
  intros Hn. apply parse_int_numeral.
  - apply digits_starts, Hn.
  - apply scan_digits_digits, Hn.
Qed.

(** [int(str(n)) == n], for every integer. *)
Lemma parse_int_str (n : Z) : Py.parse_int (Py.str n) = Some n.
Proof.
  unfold Py.str. destruct (Z.ltb_spec n 0) as [Hneg|Hpos].
  - destruct (digits_starts (- n) ltac:(lia)) as (c & r & Heq & Hc).
    unfold Py.parse_int. simpl Py.lstrip.
    change (Py.is_space "-") with false. cbv iota.
    unfold Py.signed_literal.
    change (Ascii.eqb "-" "+") with false.
    change (Ascii.eqb "-" "-") with true. cbv iota.
    unfold Py.unsigned_literal. rewrite Heq, Hc, <- Heq.
    rewrite scan_digits_digits by lia.
    change (Py.all_space EmptyString) with true. cbv iota.
    f_equal. lia.
  - apply parse_int_digits, Hpos.
Qed.

Lemma parse_int_zeros_digits (k : nat) (n : Z) :
  0 <= n -> Py.parse_int (Py.zeros k ++ Py.digits n) = Some n.
Proof.
  intros Hn. apply parse_int_numeral.
  - destruct (digits_starts n Hn) as (c & r & Heq & Hc). rewrite Heq.
    destruct k as [|k].
    + exists c, r. split; [reflexivity|exact Hc].
    + exists "0"%char, (Py.zeros k ++ String c r).
      split; reflexivity.
  - rewrite scan_digits_zeros. apply scan_digits_digits, Hn.
Qed.

Lemma format_0d_nonneg (width : nat) (n : Z) :
  0 <= n ->
  Py.format_0d width n
  = Py.zeros (width - String.length (Py.digits n)) ++ Py.digits n.
Proof.
  intros Hn. unfold Py.format_0d.
  destruct (Z.ltb_spec n 0) as [|_]; [lia|].
  rewrite Z.abs_eq by exact Hn. simpl. rewrite Nat.sub_0_r. reflexivity.
Qed.

Lemma parse_int_format_0d (width : nat) (n : Z) :
  0 <= n -> Py.parse_int (Py.format_0d width n) = Some n.
Proof.
  intros Hn. rewrite format_0d_nonneg by exact Hn.
  apply parse_int_zeros_digits, Hn.
Qed.

End Digits.

(** ** Splitting *)

Section Splitting.

Lemma split_without (sep : ascii) (s : string) :
  without sep s = true -> Py.split sep s = [s].
Proof.
  unfold without. induction s as [|c s IH]; simpl.
  - reflexivity.
  - rewrite andb_true_iff, negb_true_iff. intros [Hc Hs].
    rewrite Hc, IH by exact Hs. reflexivity.
Qed.

Lemma split_at (sep : ascii) (a b : string) :
  without sep a = true ->
  Py.split sep (a ++ String sep b) = a :: Py.split sep b.
Proof.
  unfold without. induction a as [|c a IH]; simpl.
  - intros _. rewrite Ascii.eqb_refl. reflexivity.
  - rewrite andb_true_iff, negb_true_iff. intros [Hc Ha].
    rewrite Hc, IH by exact Ha. reflexivity.
Qed.

Lemma without_cons (sep c : ascii) (r : string) :
  without sep (String c r) = negb (Ascii.eqb c sep) && without sep r.
Proof. reflexivity. Qed.

Lemma without_app (sep : ascii) (a b : string) :
  without sep (a ++ b) = without sep a && without sep b.
Proof. apply all_chars_app. Qed.

Lemma digits_without (sep : ascii) (s : string) :
  Py.is_digit sep = false ->
  all_chars Py.is_digit s = true -> without sep s = true.
Proof.
  intros Hsep. apply all_chars_impl. intros c Hc.
  rewrite (digit_not_char c sep Hc Hsep). reflexivity.
Qed.

(** [split] never returns the empty list. *)
Lemma split_nonempty (sep : ascii) (s : string) : Py.split sep s <> [].
Proof.
  destruct s as [|c s]; simpl; [discriminate|].
  destruct (Ascii.eqb c sep); [discriminate|].
  destruct (Py.split sep s); discriminate.
Qed.

End Splitting.

(** ** Numerals *)

Section Numerals.

Lemma pow10_succ (f : nat) : 10 ^ Z.of_nat (S f) = 10 * 10 ^ Z.of_nat f.
Proof. rewrite Nat2Z.inj_succ, Z.pow_succ_r by lia. reflexivity. Qed.

(** With at least one unit of fuel, all the fuel a number needs gives the
    same digits. *)
Lemma digits_acc_fuel (f1 : nat) :
  forall f2 n acc,
    0 <= n < 10 ^ Z.of_nat (S f1) -> n < 10 ^ Z.of_nat (S f2) ->
    Py.digits_acc (S f1) n acc = Py.digits_acc (S f2) n acc.
Proof.
  induction f1 as [|f1 IH]; intros f2 n acc H1 H2.
  - simpl. simpl in H1. destruct (Z.ltb_spec n 10); [reflexivity|lia].
  - cbn [Py.digits_acc]. destruct (Z.ltb_spec n 10) as [|Hge];
      [reflexivity|].
    rewrite pow10_succ in H1, H2.
    destruct f2 as [|f2]; [simpl in H2; lia|].
    apply IH.
    + split; [apply Z.div_pos; lia|apply Z.div_lt_upper_bound; lia].
    + apply Z.div_lt_upper_bound; lia.
Qed.

Lemma digits_small (n : Z) : 0 <= n < 10 -> Py.digits n = one_digit n.
Proof.
  intros Hn. unfold Py.digits. simpl.
  destruct (Z.ltb_spec n 10); [|lia].
  rewrite Z.mod_small by lia. reflexivity.
Qed.

Lemma digits_step (n : Z) :
  10 <= n -> Py.digits n = Py.digits (n / 10) ++ one_digit (n mod 10).
Proof.
  intros Hn. pose proof (digits_fuel n ltac:(lia)) as Hf.
  assert (Hq : 0 <= n / 10) by (apply Z.div_pos; lia).
  unfold Py.digits at 1. rewrite pow10_succ in Hf.
  cbn [Py.digits_acc]. destruct (Z.ltb_spec n 10); [lia|].
  rewrite digits_acc_app. f_equal. unfold Py.digits.
  destruct (Z.to_nat (Z.log2 n)) as [|f]; [simpl in Hf; lia|].
  apply digits_acc_fuel.
  - split; [exact Hq|apply Z.div_lt_upper_bound; lia].
  - apply digits_fuel, Hq.
Qed.

Lemma str_small (n : Z) : 0 <= n < 10 -> Py.str n = one_digit n.
Proof.
  intros Hn. unfold Py.str. destruct (Z.ltb_spec n 0); [lia|].
  apply digits_small, Hn.
Qed.

Lemma digits_two (n : Z) : 10 <= n < 100 -> Py.digits n = two_digits n.
Proof.
  intros Hn. rewrite digits_step by lia.
  rewrite digits_small; [reflexivity|].
  split; [apply Z.div_pos; lia|apply Z.div_lt_upper_bound; lia].
Qed.

Lemma str_unpadded (n : Z) : 0 <= n < 100 -> Py.str n = unpadded n.
Proof.
  intros Hn. unfold Py.str, unpadded. destruct (Z.ltb_spec n 0); [lia|].
  destruct (Z.ltb_spec n 10).
  - apply digits_small. lia.
  - apply digits_two. lia.
Qed.

(** The specification [02d] writes a number below 100 with exactly two
    digit characters. *)
Lemma format_02d_two_digits (n : Z) :
  0 <= n < 100 -> Py.format_0d 2 n = two_digits n.
Proof.
  intros Hn. rewrite format_0d_nonneg by lia.
  destruct (Z.ltb_spec n 10) as [Hlt|Hge].
  - rewrite digits_small by lia. unfold two_digits.
    rewrite Z.div_small, Z.mod_small by lia. reflexivity.
  - rewrite digits_two by lia. reflexivity.
Qed.

Lemma str_all_digits (n : Z) :
  0 <= n -> all_chars Py.is_digit (Py.str n) = true.
Proof.
  intros Hn. unfold Py.str. destruct (Z.ltb_spec n 0); [lia|].
  apply digits_all_digits, Hn.
Qed.

Lemma format_0d_all_digits (width : nat) (n : Z) :
  0 <= n -> all_chars Py.is_digit (Py.format_0d width n) = true.
Proof.
  intros Hn. rewrite format_0d_nonneg by exact Hn.
  rewrite all_chars_app, all_chars_zeros, digits_all_digits by exact Hn.
  reflexivity.
Qed.

End Numerals.

(** ** Parsing strings made of numerals *)

Section ParseNumerals.

Lemma range_checks_ok (h m sec t : Z) :
  0 <= h -> 0 <= m < 60 -> 0 <= sec < 60 -> 0 <= t < 10 ->
  range_checks h m sec t = Ok (encode h m sec t).
Proof.
  intros Hh Hm Hs Ht. unfold range_checks, encode.
  destruct (Z.ltb_spec sec 0); [lia|].
  destruct (Z.geb_spec sec 60); [lia|].
  destruct (Z.ltb_spec t 0); [lia|].
  destruct (Z.geb_spec t 10); [lia|].
  destruct (Z.ltb_spec m 0); [lia|].
  destruct (Z.geb_spec m 60); [lia|].
  destruct (Z.ltb_spec h 0); [lia|].
  reflexivity.
Qed.

Lemma range_checks_minutes (h m sec t : Z) :
  0 <= sec < 60 -> 0 <= t < 10 -> 60 <= m ->
  range_checks h m sec t = Raise (ValueError msg_minutes).
Proof.
  intros Hs Ht Hm. unfold range_checks.
  destruct (Z.ltb_spec sec 0); [lia|].
  destruct (Z.geb_spec sec 60); [lia|].
  destruct (Z.ltb_spec t 0); [lia|].
  destruct (Z.geb_spec t 10); [lia|].
  destruct (Z.ltb_spec m 0); [lia|].
  destruct (Z.geb_spec m 60); [|lia].
  reflexivity.
Qed.

Variables (ss ts : string) (sec t : Z).
Hypothesis ss_digits : all_chars Py.is_digit ss = true.
Hypothesis ts_digits : all_chars Py.is_digit ts = true.
Hypothesis ss_value : Py.parse_int ss = Some sec.
Hypothesis ts_value : Py.parse_int ts = Some t.

Lemma last_without_colon : without ":" (ss ++ "." ++ ts) = true.
Proof.
  change ("." ++ ts) with (String "." ts).
  rewrite without_app, without_cons.
  rewrite !digits_without by (assumption || reflexivity). reflexivity.
Qed.

Lemma split_dot : Py.split "." (ss ++ "." ++ ts) = [ss; ts].
Proof.
  change ("." ++ ts) with (String "." ts).
  rewrite split_at, split_without;
    try (apply digits_without; (assumption || reflexivity)).
  reflexivity.
Qed.

(** What the [try] block does once the colon-separated parts are read. *)
Lemma last_segment_numerals (h m : Z) :
  ('(seconds_str, tenth_str)
     <- Py.unpack2 (Py.split "." (ss ++ "." ++ ts)) ;;
   seconds <- Py.int seconds_str ;;
   tenth <- Py.int tenth_str ;;
   range_checks h m seconds tenth)
  = range_checks h m sec t.
Proof.
  rewrite split_dot. cbn [Py.unpack2 bind]. unfold Py.int.
  rewrite ss_value. cbn [bind]. rewrite ts_value. reflexivity.
Qed.

Lemma try_one :
  time_conversion_try (ss ++ "." ++ ts) = range_checks 0 0 sec t.
Proof.
  unfold time_conversion_try. cbv zeta.
  rewrite (split_without ":") by apply last_without_colon.
  apply last_segment_numerals.
Qed.

Lemma try_two (ms : string) (m : Z) :
  all_chars Py.is_digit ms = true ->
  Py.parse_int ms = Some m ->
  time_conversion_try (ms ++ ":" ++ ss ++ "." ++ ts)
  = range_checks 0 m sec t.
Proof.
  intros Hms Hm. unfold time_conversion_try. cbv zeta.
  change (":" ++ ss ++ "." ++ ts) with (String ":" (ss ++ "." ++ ts)).
  rewrite split_at by (apply digits_without; (assumption || reflexivity)).
  rewrite (split_without ":") by apply last_without_colon.
  unfold segments, Py.int. rewrite Hm.
  apply last_segment_numerals.
Qed.

Lemma try_three (hs ms : string) (h m : Z) :
  all_chars Py.is_digit hs = true ->
  all_chars Py.is_digit ms = true ->
  Py.parse_int hs = Some h ->
  Py.parse_int ms = Some m ->
  time_conversion_try (hs ++ ":" ++ ms ++ ":" ++ ss ++ "." ++ ts)
  = range_checks h m sec t.
Proof.
  intros Hhs Hms Hh Hm. unfold time_conversion_try. cbv zeta.
  change (":" ++ ms ++ ":" ++ ss ++ "." ++ ts)
    with (String ":" (ms ++ String ":" (ss ++ "." ++ ts))).
  rewrite !split_at by (apply digits_without; (assumption || reflexivity)).
  rewrite (split_without ":") by apply last_without_colon.
  unfold segments, Py.int. rewrite Hh, Hm.
  apply last_segment_numerals.
Qed.

End ParseNumerals.

(** ** The fields [time_conversion2] writes *)

Section FormatFields.

Variable n : Z.

Lemma seconds_range : 0 <= (n mod 600) / 10 < 60.
Proof. Z.to_euclidean_division_equations. lia. Qed.

Lemma tenth_range : 0 <= n mod 10 < 10.
Proof. Z.to_euclidean_division_equations. lia. Qed.

Lemma fields_sum : encode 0 (n / 600) ((n mod 600) / 10) (n mod 10) = n.
Proof.
  unfold encode. Z.to_euclidean_division_equations. lia.
Qed.

Lemma time_conversion2_minutes :
  0 < n / 600 ->
  time_conversion2 n
  = Py.str (n / 600) ++ ":" ++ Py.format_0d 2 ((n mod 600) / 10) ++ "."
      ++ Py.str (n mod 10).
Proof.
  intros Hm. unfold time_conversion2. cbv zeta.
  destruct (Z.gtb_spec (n / 600) 0); [reflexivity|lia].
Qed.

Lemma time_conversion2_seconds :
  n / 600 <= 0 ->
  time_conversion2 n = Py.str ((n mod 600) / 10) ++ "." ++ Py.str (n mod 10).
Proof.
  intros Hm. unfold time_conversion2. cbv zeta.
  destruct (Z.gtb_spec (n / 600) 0); [lia|reflexivity].
Qed.

Ltac numeral_facts :=
  first [ apply str_all_digits; lia
        | apply format_0d_all_digits; lia
        | apply parse_int_format_0d; lia
        | apply parse_int_str ].

(** Parsing the output of [time_conversion2] reaches the range checks with
    the fields that were written. *)
Lemma try_time_conversion2 :
  time_conversion_try (time_conversion2 n)
  = range_checks 0 (Z.max 0 (n / 600)) ((n mod 600) / 10) (n mod 10).
Proof.
  pose proof seconds_range as Hs. pose proof tenth_range as Ht.
  destruct (Z.lt_ge_cases 0 (n / 600)) as [Hm|Hm].
  - rewrite time_conversion2_minutes by exact Hm.
    rewrite Z.max_r by lia.
    apply try_two; numeral_facts.
  - rewrite time_conversion2_seconds by exact Hm.
    rewrite Z.max_l by lia.
    apply try_one; numeral_facts.
Qed.

End FormatFields.

(** ** Integer to string to integer *)

Section RoundTrip.

Lemma handler_ok (s : string) (v : Z) :
  time_conversion_try s = Ok v -> time_conversion s = Ok v.
Proof. intros H. unfold time_conversion. rewrite H. reflexivity. Qed.

Lemma handler_value_error (s msg : string) :
  time_conversion_try s = Raise (ValueError msg) ->
  time_conversion s = Raise (ValueError msg_uniform).
Proof. intros H. unfold time_conversion. rewrite H. reflexivity. Qed.

(** The result of parsing a formatted time: the time itself below one
    hour, the error from one hour on. *)
Lemma parse_format (n : Z) :
  0 <= n ->
  time_conversion (time_conversion2 n)
  = if n <? 36000 then Ok n else Raise (ValueError msg_uniform).
Proof.
  intros Hn.
  pose proof (seconds_range n) as Hs. pose proof (tenth_range n) as Ht.
  pose proof (try_time_conversion2 n) as Htry.
  assert (Hm : 0 <= n / 600) by (apply Z.div_pos; lia).
  rewrite Z.max_r in Htry by exact Hm.
  destruct (Z.ltb_spec n 36000) as [Hlt|Hge].
  - apply handler_ok. rewrite Htry, range_checks_ok; try assumption; try lia.
    + f_equal. apply fields_sum.
    + split; [exact Hm|]. apply Z.div_lt_upper_bound; lia.
  - apply handler_value_error with (msg := msg_minutes).
    rewrite Htry. apply range_checks_minutes; try assumption.
    apply Z.div_le_lower_bound; lia.
Qed.

End RoundTrip.

(** C10.  Below one hour (36000 tenths) the round trip from an integer to
    its string and back succeeds and returns the integer. *)
Theorem roundtrip_below_one_hour (n : Z) :
  0 <= n < 36000 -> time_conversion (time_conversion2 n) = Ok n.
Proof.
  intros Hn. rewrite parse_format by lia.
  destruct (Z.ltb_spec n 36000); [reflexivity|lia].
Qed.

Lemma roundtrip_below_one_hour_witness :
  time_conversion (time_conversion2 1251) = Ok 1251.
Proof. apply (roundtrip_below_one_hour 1251). lia. Defined.




(** ** The output of [time_conversion2] *)

(** Without the conversion limit, [time_conversion2 n] is the string of the
    specification for every non-negative [n]. *)
Lemma time_conversion2_format_spec (n : Z) :
  0 <= n -> time_conversion2 n = format_spec n.
Proof.
  intros _.
  pose proof (seconds_range n) as Hs. pose proof (tenth_range n) as Ht.
  unfold format_spec. cbv zeta.
  destruct (Z.ltb_spec 0 (n / 600)) as [Hm|Hm].
  - rewrite time_conversion2_minutes by exact Hm.
    rewrite format_02d_two_digits, (str_small (n mod 10)) by lia.
    reflexivity.
  - rewrite time_conversion2_seconds by exact Hm.
    rewrite str_unpadded, (str_small (n mod 10)) by lia. reflexivity.
Qed.

(** C6.  [time_conversion2] never writes an hours segment: its output has
    at most two colon-separated segments, and from 36000 tenths on the first
    of the two is the numeral of [n / 600], a minutes value above 59.  In
    particular 37534 gives ["62:33.4"], although ["1:02:33.4"] parses to
    37534. *)
Theorem format_never_writes_hours :
  (forall n, (List.length (Py.split ":" (time_conversion2 n)) <= 2)%nat)
  /\ (forall n, 36000 <= n ->
        exists rest,
          Py.split ":" (time_conversion2 n) = [Py.str (n / 600); rest]
          /\ Py.parse_int (Py.str (n / 600)) = Some (n / 600)
          /\ 59 < n / 600)
  /\ time_conversion2 37534 = "62:33.4"
  /\ time_conversion "1:02:33.4" = Ok 37534.
Proof.
  assert (Hsplit : forall n, 0 < n / 600 ->
            Py.split ":" (time_conversion2 n)
            = [Py.str (n / 600);
               Py.format_0d 2 ((n mod 600) / 10) ++ "." ++ Py.str (n mod 10)]).
  { intros n Hm.
    pose proof (seconds_range n) as Hs. pose proof (tenth_range n) as Ht.
    rewrite time_conversion2_minutes by exact Hm.
    change (":" ++ ?x) with (String ":" x).
    rewrite split_at
      by (apply digits_without; [reflexivity|apply str_all_digits; lia]).
    rewrite split_without; [reflexivity|].
    apply last_without_colon.
    - apply format_0d_all_digits. lia.
    - apply str_all_digits. lia. }
  split; [|split; [|split; reflexivity]].
  - intros n. destruct (Z.lt_ge_cases 0 (n / 600)) as [Hm|Hm].
    + rewrite Hsplit by exact Hm. simpl. lia.
    + pose proof (seconds_range n) as Hs. pose proof (tenth_range n) as Ht.
      rewrite time_conversion2_seconds by exact Hm.
      rewrite split_without; [simpl; lia|].
      apply last_without_colon; apply str_all_digits; lia.
  - intros n Hn.
    assert (Hm : 60 <= n / 600) by (apply Z.div_le_lower_bound; lia).
    eexists. split; [apply Hsplit; lia|].
    split; [apply parse_int_str|lia].
Qed.

Lemma format_never_writes_hours_witness :
  exists rest,
    Py.split ":" (time_conversion2 37534) = [Py.str (37534 / 600); rest]
    /\ Py.parse_int (Py.str (37534 / 600)) = Some (37534 / 600)
    /\ 59 < 37534 / 600.
Proof.
  apply (proj1 (proj2 format_never_writes_hours) 37534). lia.
Defined.

(** ** String to integer to string *)

Section Canonical.

Variable v : TimeValue.
Hypothesis v_valid : valid_time v = true.

Lemma valid_time_bounds :
  0 <= tv_hours v /\ 0 <= tv_minutes v < 60
  /\ 0 <= tv_seconds v < 60 /\ 0 <= tv_tenths v < 10.
Proof.
  unfold valid_time in v_valid.
  rewrite !andb_true_iff, !Z.leb_le in v_valid. lia.
Qed.

(** Every canonical string is accepted and read as its time value. *)
Lemma time_conversion_canonical :
  time_conversion (canonical v) = Ok (time_value v).
Proof.
  destruct valid_time_bounds as (Hh & Hm & Hs & Ht).
  apply handler_ok. unfold canonical, time_value.
  rewrite <- !format_02d_two_digits, <- (str_small (tv_tenths v)) by lia.
  destruct (Z.ltb_spec 0 (tv_hours v)) as [Hpos|Hzero].
  - rewrite try_three with (sec := tv_seconds v) (t := tv_tenths v)
                           (h := tv_hours v) (m := tv_minutes v);
      first [ apply range_checks_ok; lia
            | apply str_all_digits; lia
            | apply format_0d_all_digits; lia
            | apply parse_int_format_0d; lia
            | apply parse_int_str ].
  - replace (tv_hours v) with 0 by lia.
    destruct (Z.ltb_spec 0 (tv_minutes v)) as [Hmpos|Hmzero].
    + rewrite try_two with (sec := tv_seconds v) (t := tv_tenths v)
                           (m := tv_minutes v);
        first [ apply range_checks_ok; lia
              | apply str_all_digits; lia
              | apply format_0d_all_digits; lia
              | apply parse_int_format_0d; lia
              | apply parse_int_str ].
    + replace (tv_minutes v) with 0 by lia.
      rewrite try_one with (sec := tv_seconds v) (t := tv_tenths v);
        first [ apply range_checks_ok; lia
              | apply str_all_digits; lia
              | apply parse_int_str ].
Qed.

(** Without hours, [time_conversion2] writes the canonical string. *)
Lemma time_conversion2_canonical :
  tv_hours v = 0 -> time_conversion2 (time_value v) = canonical v.
Proof.
  intros Hzero. destruct valid_time_bounds as (_ & Hm & Hs & Ht).
  unfold canonical, time_value, encode. rewrite Hzero.
  change (0 <? 0) with false. cbv iota.
  set (n := 0 * 36000 + tv_minutes v * 600 + tv_seconds v * 10
            + tv_tenths v).
  assert (Hmin : n / 600 = tv_minutes v)
    by (subst n; Z.to_euclidean_division_equations; lia).
  assert (Hsec : (n mod 600) / 10 = tv_seconds v)
    by (subst n; Z.to_euclidean_division_equations; lia).
  assert (Hten : n mod 10 = tv_tenths v)
    by (subst n; Z.to_euclidean_division_equations; lia).
  destruct (Z.ltb_spec 0 (tv_minutes v)) as [Hpos|Hle].
  - rewrite time_conversion2_minutes by lia.
    rewrite Hmin, Hsec, Hten.
    rewrite format_02d_two_digits, (str_small (tv_tenths v)) by lia.
    reflexivity.
  - rewrite time_conversion2_seconds by lia.
    rewrite Hsec, Hten, (str_small (tv_tenths v)) by lia.
    reflexivity.
Qed.

End Canonical.

(** C5, as stated: formatting the parse of a valid canonical string gives
    the string back.  It fails on a canonical string with an hours segment:
    ["1:02:33.4"] is read as 37534, which is written ["62:33.4"]. *)
Lemma canonical_with_hours_not_restored :
  let v := {| tv_hours := 1; tv_minutes := 2; tv_seconds := 33;
              tv_tenths := 4 |} in
  valid_time v = true
  /\ canonical v = "1:02:33.4"
  /\ time_conversion (canonical v) = Ok 37534
  /\ time_conversion2 37534 = "62:33.4"
  /\ ~ (forall w, valid_time w = true ->
        exists n, time_conversion (canonical w) = Ok n
                  /\ time_conversion2 n = canonical w).
Proof.
  cbv zeta. repeat (split; [reflexivity|]).
  intros H.
  destruct (H {| tv_hours := 1; tv_minutes := 2; tv_seconds := 33;
                 tv_tenths := 4 |} eq_refl) as (n & Hparse & Hformat).
  assert (Hn : n = 37534) by (vm_compute in Hparse; congruence).
  subst n. vm_compute in Hformat. discriminate Hformat.
Qed.

(** C5, amended.  For every valid time value without hours, the canonical
    string (at most two segments) is accepted, and formatting the integer it
    is read as gives the string back. *)
Theorem canonical_roundtrip_without_hours (v : TimeValue) :
  valid_time v = true ->
  tv_hours v = 0 ->
  time_conversion (canonical v) = Ok (time_value v)
  /\ time_conversion2 (time_value v) = canonical v.
Proof.
  intros Hvalid Hzero. split.
  - apply time_conversion_canonical, Hvalid.
  - apply time_conversion2_canonical; assumption.
Qed.

Lemma canonical_roundtrip_without_hours_witness :
  time_conversion "2:05.1" = Ok 1251 /\ time_conversion2 1251 = "2:05.1".
Proof.
  apply (canonical_roundtrip_without_hours
           {| tv_hours := 0; tv_minutes := 2; tv_seconds := 5;
              tv_tenths := 1 |}); reflexivity.
Defined.

(** ** Arbitrary strings *)

Section Fields.

Ltac compare_all :=
  repeat match goal with
    | |- context [?a <? ?b] => destruct (Z.ltb_spec a b)
    | |- context [?a <=? ?b] => destruct (Z.leb_spec a b)
    | |- context [?a >=? ?b] => destruct (Z.geb_spec a b)
    end.

(** The range checks pass exactly on the valid time values. *)
Lemma range_checks_valid (h m sec t : Z) :
  let v := {| tv_hours := h; tv_minutes := m; tv_seconds := sec;
              tv_tenths := t |} in
  (valid_time v = true /\ range_checks h m sec t = Ok (encode h m sec t))
  \/ (valid_time v = false
      /\ exists msg, range_checks h m sec t = Raise (ValueError msg)).
Proof.
  unfold valid_time, range_checks, encode.
  cbn [tv_hours tv_minutes tv_seconds tv_tenths].
  compare_all; cbn [andb orb];
    first [ left; split; reflexivity
          | right; split; [reflexivity|eexists; reflexivity]
          | lia ].
Qed.

(** The [try] block reads the fields of the string and checks their
    ranges; it raises a [ValueError] when the fields cannot be read. *)
Lemma try_fields (s : string) :
  match time_fields s with
  | Some (h, m, sec, t) => time_conversion_try s = range_checks h m sec t
  | None => exists msg, time_conversion_try s = Raise (ValueError msg)
  end.
Proof.
  assert (Hlast : forall h m st,
    match
      match Py.split "." st with
      | [ss; ts] =>
          match Py.parse_int ss, Py.parse_int ts with
          | Some sec, Some t => Some (h, m, sec, t)
          | _, _ => None
          end
      | _ => None
      end
    with
    | Some (h', m', sec, t) =>
        ('(seconds_str, tenth_str) <- Py.unpack2 (Py.split "." st) ;;
         seconds <- Py.int seconds_str ;;
         tenth <- Py.int tenth_str ;;
         range_checks h m seconds tenth) = range_checks h' m' sec t
    | None =>
        exists msg,
          ('(seconds_str, tenth_str) <- Py.unpack2 (Py.split "." st) ;;
           seconds <- Py.int seconds_str ;;
           tenth <- Py.int tenth_str ;;
           range_checks h m seconds tenth) = Raise (ValueError msg)
    end).
  { intros h m st. unfold Py.int.
    destruct (Py.split "." st) as [|ss [|ts [|x l]]]; cbn [Py.unpack2 bind];
      try (eexists; reflexivity).
    destruct (Py.parse_int ss) as [sec|]; cbn [bind];
      [|eexists; reflexivity].
    destruct (Py.parse_int ts) as [t|]; cbn [bind];
      [reflexivity|eexists; reflexivity]. }
  unfold time_fields, time_conversion_try. cbv zeta.
  destruct (Py.split ":" s) as [|a [|b [|c [|d l]]]]; cbn [segments bind];
    try (eexists; reflexivity).
  - apply Hlast.
  - unfold Py.int. destruct (Py.parse_int a) as [m|]; cbn [bind];
      [apply Hlast|eexists; reflexivity].
  - unfold Py.int.
    destruct (Py.parse_int a) as [h|]; cbn [bind];
      [|eexists; reflexivity].
    destruct (Py.parse_int b) as [m|]; cbn [bind];
      [apply Hlast|eexists; reflexivity].
Qed.

(** The result of [time_conversion] on any string. *)
Lemma time_conversion_cases (s : string) :
  match time_fields s with
  | Some (h, m, sec, t) =>
      if valid_time {| tv_hours := h; tv_minutes := m; tv_seconds := sec;
                       tv_tenths := t |}
      then time_conversion s = Ok (encode h m sec t)
      else time_conversion s = Raise (ValueError msg_uniform)
  | None => time_conversion s = Raise (ValueError msg_uniform)
  end.
Proof.
  pose proof (try_fields s) as Htry.
  destruct (time_fields s) as [[[[h m] sec] t]|].
  - destruct (range_checks_valid h m sec t) as [[Hv Hr]|[Hv [msg Hr]]];
      cbv zeta in Hv; rewrite Hv.
    + apply handler_ok. congruence.
    + apply handler_value_error with (msg := msg). congruence.
  - destruct Htry as [msg Hmsg].
    apply handler_value_error with (msg := msg). exact Hmsg.
Qed.


End Fields.

(** C1.  When [time_conversion] accepts a string, the string has one, two or
    three colon-separated segments that read as hours [h] (0 when absent),
    minutes [m] (0 when absent), seconds [sec] and tenths [t], all in range,
    and the result is [h*36000 + m*600 + sec*10 + t], a non-negative
    integer.  In particular ["1:02:33.4"] gives 37534, ["2:05.1"] gives 1251
    and ["59.9"] gives 599. *)
Theorem time_conversion_value :
  (forall s n,
      time_conversion s = Ok n ->
      exists h m sec t,
        time_fields s = Some (h, m, sec, t)
        /\ 0 <= h /\ 0 <= m <= 59 /\ 0 <= sec <= 59 /\ 0 <= t <= 9
        /\ n = h * 36000 + m * 600 + sec * 10 + t
        /\ 0 <= n)
  /\ time_conversion "1:02:33.4" = Ok 37534
  /\ time_conversion "2:05.1" = Ok 1251
  /\ time_conversion "59.9" = Ok 599.
Proof.
  split; [|repeat split; reflexivity].
  intros s n Hok. pose proof (time_conversion_cases s) as Hcases.
  destruct (time_fields s) as [[[[h m] sec] t]|]; [|congruence].
  destruct (valid_time _) eqn:Hvalid; [|congruence].
  destruct (valid_time_bounds _ Hvalid) as (Hh & Hm & Hs & Ht).
  cbn [tv_hours tv_minutes tv_seconds tv_tenths] in *.
  exists h, m, sec, t.
  assert (Hn : n = encode h m sec t) by congruence.
  unfold encode in Hn. repeat split; lia.
Qed.

Lemma time_conversion_value_witness :
  exists h m sec t,
    time_fields "1:02:33.4" = Some (h, m, sec, t)
    /\ 0 <= h /\ 0 <= m <= 59 /\ 0 <= sec <= 59 /\ 0 <= t <= 9
    /\ 37534 = h * 36000 + m * 600 + sec * 10 + t
    /\ 0 <= 37534.
Proof.
  apply (proj1 time_conversion_value "1:02:33.4" 37534). reflexivity.
Defined.


(** ** The characters of an accepted string *)

Section AcceptedChars.

Lemma all_chars_lstrip (P : ascii -> bool) (s : string) :
  (forall c, Py.is_space c = true -> P c = true) ->
  all_chars P (Py.lstrip s) = true -> all_chars P s = true.
Proof.
  intros Hspace. induction s as [|c s IH]; simpl; [reflexivity|].
  destruct (Py.is_space c) eqn:Hc.
  - intros H. rewrite Hspace, IH by assumption. reflexivity.
  - simpl. tauto.
Qed.

Lemma scan_digits_chars (P : ascii -> bool) :
  (forall c, Py.is_digit c = true -> P c = true) ->
  (forall c, Py.is_underscore c = true -> P c = true) ->
  forall s prev acc v rest,
    Py.scan_digits s prev acc = Some (v, rest) ->
    all_chars P rest = true -> all_chars P s = true.
Proof.
  intros Hdigit Hus. induction s as [|c s IH]; intros prev acc v rest; simpl.
  - reflexivity.
  - destruct (Py.is_underscore c) eqn:Hu.
    + destruct prev; [discriminate|]. intros Hscan Hrest.
      rewrite Hus by exact Hu. exact (IH _ _ _ _ Hscan Hrest).
    + destruct (Py.is_digit c) eqn:Hd.
      * intros Hscan Hrest. rewrite Hdigit by exact Hd.
        exact (IH _ _ _ _ Hscan Hrest).
      * destruct prev; [discriminate|]. intros [= _ <-]. simpl. tauto.
Qed.

Lemma int_char_digit (c : ascii) : Py.is_digit c = true -> int_char c = true.
Proof. intros H. unfold int_char. rewrite H. reflexivity. Qed.

Lemma int_char_tolerated (c : ascii) :
  tolerated_by_int c = true -> int_char c = true.
Proof. intros H. unfold int_char. rewrite H. apply orb_true_r. Qed.

Lemma int_char_space (c : ascii) : Py.is_space c = true -> int_char c = true.
Proof.
  intros H. apply int_char_tolerated. unfold tolerated_by_int.
  rewrite H. reflexivity.
Qed.

Lemma int_char_underscore (c : ascii) :
  Py.is_underscore c = true -> int_char c = true.
Proof.
  intros H. apply int_char_tolerated. unfold tolerated_by_int.
  rewrite H. rewrite !orb_true_r. reflexivity.
Qed.

Lemma unsigned_literal_chars
  (sign : Z) (body : string) (v : Z) (rest : string) :
  Py.unsigned_literal sign body = Some (v, rest) ->
  all_chars int_char rest = true -> all_chars int_char body = true.
Proof.
  unfold Py.unsigned_literal. destruct body as [|c r]; [discriminate|].
  destruct (Py.is_digit c); [|discriminate].
  destruct (Py.scan_digits (String c r) false 0) as [[v' rest']|] eqn:Hscan;
    [|discriminate].
  intros [= _ <-]. revert Hscan.
  apply scan_digits_chars; auto using int_char_digit, int_char_underscore.
Qed.

(** A string [int] accepts is made of digits, white space, signs and
    underscores. *)
Lemma parse_int_chars (s : string) (v : Z) :
  Py.parse_int s = Some v -> all_chars int_char s = true.
Proof.
  unfold Py.parse_int.
  destruct (Py.signed_literal (Py.lstrip s)) as [[v' rest]|] eqn:Hlit;
    [|discriminate].
  destruct (Py.all_space rest) eqn:Hrest; [|discriminate]. intros _.
  apply all_chars_lstrip; [exact int_char_space|].
  assert (Hrest' : all_chars int_char rest = true)
    by (revert Hrest; apply all_chars_impl, int_char_space).
  revert Hlit. unfold Py.signed_literal.
  destruct (Py.lstrip s) as [|c r]; [discriminate|].
  destruct (Ascii.eqb_spec c "+") as [->|_].
  { intros Hlit. simpl. exact (unsigned_literal_chars _ _ _ _ Hlit Hrest'). }
  destruct (Ascii.eqb_spec c "-") as [->|_].
  { intros Hlit. simpl. exact (unsigned_literal_chars _ _ _ _ Hlit Hrest'). }
  intros Hlit. exact (unsigned_literal_chars _ _ _ _ Hlit Hrest').
Qed.

(** The characters of a string are those of its pieces and the
    separator. *)
Lemma split_chars (P : ascii -> bool) (sep : ascii) (s : string) :
  P sep = true ->
  Forall (fun piece => all_chars P piece = true) (Py.split sep s) ->
  all_chars P s = true.
Proof.
  intros Hsep. induction s as [|c s IH]; simpl; [reflexivity|].
  destruct (Ascii.eqb_spec c sep) as [->|_].
  - intros H. inversion H; subst. rewrite Hsep. auto.
  - destruct (Py.split sep s) as [|h t].
    + intros H. inversion H as [|? ? Hc _]; subst. simpl in Hc.
      apply andb_true_iff in Hc. rewrite (proj1 Hc). auto.
    + intros H. inversion H as [|? ? Hc Ht]; subst. simpl in Hc.
      apply andb_true_iff in Hc. rewrite (proj1 Hc). simpl.
      apply IH. constructor; tauto.
Qed.

Lemma accepted_int_char (c : ascii) :
  int_char c = true -> accepted_char c = true.
Proof.
  unfold int_char, accepted_char, digit_or_separator.
  rewrite !orb_true_iff. tauto.
Qed.

Lemma int_accepted (s : string) (v : Z) :
  Py.parse_int s = Some v -> all_chars accepted_char s = true.
Proof.
  intros H. apply (all_chars_impl int_char); [exact accepted_int_char|].
  exact (parse_int_chars s v H).
Qed.

Lemma last_segment_accepted (st ss ts : string) (sec t : Z) :
  Py.split "." st = [ss; ts] ->
  Py.parse_int ss = Some sec -> Py.parse_int ts = Some t ->
  all_chars accepted_char st = true.
Proof.
  intros Hsplit Hs Ht. apply (split_chars _ "."); [reflexivity|].
  rewrite Hsplit. repeat constructor; eauto using int_accepted.
Qed.

(** A string whose fields can be read holds accepted characters only. *)
Lemma time_fields_accepted (s : string) (x : Z * Z * Z * Z) :
  time_fields s = Some x -> all_chars accepted_char s = true.
Proof.
  unfold time_fields. intros H.
  apply (split_chars _ ":"); [reflexivity|].
  destruct (Py.split ":" s) as [|a [|b [|c [|d l]]]]; try discriminate;
    repeat match type of H with
      | context [Py.parse_int ?y] => destruct (Py.parse_int y) eqn:?
      | context [Py.split "." ?y] =>
          destruct (Py.split "." y) as [|? [|? [|? ?]]] eqn:?
      end; try discriminate;
    repeat constructor; eauto using int_accepted, last_segment_accepted.
Qed.

End AcceptedChars.

(** C9, as stated: every string with a character other than an ASCII digit,
    [':'] or ['.'] is rejected.  It fails on strings with the characters
    [int] tolerates: [" 5.3"], ["+5.3"] and ["1_0.5"] are accepted. *)
Lemma tolerated_characters_accepted :
  all_chars digit_or_separator " 5.3" = false
  /\ time_conversion " 5.3" = Ok 53
  /\ time_conversion "+5.3" = Ok 53
  /\ time_conversion "1_0.5" = Ok 105
  /\ ~ (forall s, all_chars digit_or_separator s = false ->
                  time_conversion s = Raise (ValueError msg_uniform)).
Proof.
  repeat (split; [reflexivity|]).
  intros H. specialize (H " 5.3" eq_refl). discriminate H.
Qed.

(** ** The URL builders *)

Section Urls.

Lemma prefix_app (p a b : string) :
  String.prefix p a = true -> String.prefix p (a ++ b) = true.
Proof.
  revert a. induction p as [|c p IH]; intros a.
  - intros _. destruct (a ++ b); reflexivity.
  - destruct a as [|d a]; simpl; [discriminate|].
    destruct (ascii_dec c d); [apply IH|discriminate].
Qed.

Lemma contains_app (p a b : string) :
  contains p a = true -> contains p (a ++ b) = true.
Proof.
  induction a as [|d a IH].
  - destruct p; simpl; [destruct b; reflexivity|discriminate].
  - cbn [contains String.append]. rewrite !orb_true_iff.
    intros [Hp|Hc].
    + left. apply (prefix_app p (String d a) b Hp).
    + right. apply IH, Hc.
Qed.

End Urls.

(** C7.  Each URL builder returns its fixed template over the base
    [https://www.biathlonresults.com/modules/sportapi/api/] with the
    identifiers inserted as they are, in the documented order; the constant
    [RT=385698] is in the results, calendar and event URLs for every
    identifier, and not in the fixed text of the analytics template. *)
Theorem url_builders :
  (forall Race_Id Type_Id,
      get_url_analytics Race_Id Type_Id
      = api_base ++ "AnalyticResults?RaceId=" ++ Race_Id
          ++ "&TypeId=" ++ Type_Id)
  /\ (forall Race_Id,
        get_url_results Race_Id
        = api_base ++ "Results?" ++ rt_constant ++ "&RaceId=" ++ Race_Id)
  /\ (forall season,
        get_url_calendar season
        = api_base ++ "Events?" ++ rt_constant ++ "&SeasonId=" ++ season
            ++ "&Level=-1")
  /\ (forall Event_Id,
        get_url_event Event_Id
        = api_base ++ "Competitions?" ++ rt_constant ++ "&EventId="
            ++ Event_Id)
  /\ (forall Race_Id, contains rt_constant (get_url_results Race_Id) = true)
  /\ (forall season, contains rt_constant (get_url_calendar season) = true)
  /\ (forall Event_Id, contains rt_constant (get_url_event Event_Id) = true)
  /\ contains rt_constant (api_base ++ "AnalyticResults?RaceId=") = false
  /\ contains rt_constant "&TypeId=" = false
  /\ get_url_analytics "123" "STTM"
     = "https://www.biathlonresults.com/modules/sportapi/api/AnalyticResults?RaceId=123&TypeId=STTM".
Proof.
  split.
  { intros Race_Id Type_Id. unfold get_url_analytics.
    rewrite !append_assoc. reflexivity. }
  split; [reflexivity|].
  split.
  { intros season. unfold get_url_calendar.
    rewrite append_assoc. reflexivity. }
  split; [reflexivity|].
  split.
  { intros Race_Id. unfold get_url_results. apply contains_app. reflexivity. }
  split.
  { intros season. unfold get_url_calendar.
    rewrite append_assoc. apply contains_app. reflexivity. }
  split.
  { intros Event_Id. unfold get_url_event. apply contains_app. reflexivity. }
  repeat split; reflexivity.
Qed.

(** ** [get_json] *)

Section GetJson.

Variable JSON : Type.
Variable requests_get : string -> result Response.
Variable response_json : Response -> result JSON.

Lemma raise_for_status_rejected (answer : Response) :
  rejected_status answer = true ->
  exists msg, raise_for_status answer = Raise (Exn true false msg).
Proof.
  unfold rejected_status, raise_for_status. cbv zeta.
  rewrite andb_true_iff, Z.leb_le, Z.ltb_lt. intros [Hlo Hhi].
  destruct (Z.leb_spec 400 (status_code answer)); [|lia].
  destruct (Z.ltb_spec (status_code answer) 500).
  - eexists. reflexivity.
  - destruct (Z.leb_spec 500 (status_code answer)); [|lia].
    destruct (Z.ltb_spec (status_code answer) 600); [|lia].
    eexists. reflexivity.
Qed.

Lemma raise_for_status_passed (answer : Response) :
  rejected_status answer = false -> raise_for_status answer = Ok tt.
Proof.
  unfold rejected_status, raise_for_status. cbv zeta.
  rewrite andb_false_iff, Z.leb_gt, Z.ltb_ge. intros H.
  destruct (Z.leb_spec 400 (status_code answer));
    destruct (Z.ltb_spec (status_code answer) 500);
    destruct (Z.leb_spec 500 (status_code answer));
    destruct (Z.ltb_spec (status_code answer) 600);
    cbn [andb]; (reflexivity || lia).
Qed.

(** The [try] block once the response has arrived. *)
Lemma get_json_try_answer (url : string) (answer : Response) :
  requests_get url = Ok answer ->
  get_json_try requests_get response_json url
  = (_ <- raise_for_status answer ;; response_json answer).
Proof.
  intros Hget. unfold get_json_try. rewrite Hget. cbn [bind].
  destruct (raise_for_status answer); cbn [bind]; [|reflexivity].
  destruct (response_json answer); reflexivity.
Qed.

End GetJson.

(** C8, as stated: a response with a status outside 200..299 makes
    [get_json] raise a [RequestException].  It fails on the statuses
    [raise_for_status] lets through: a response with status 304 and a JSON
    body is decoded and returned. *)
Lemma unrejected_status_is_decoded :
  let answer := {| status_code := 304; content := "[]" |} in
  let requests_get := fun _ : string => Ok answer in
  let response_json := fun _ : Response => Ok (@nil Z) in
  ~ (200 <= status_code answer < 300)
  /\ get_json requests_get response_json (get_url_results "1") = Ok []
  /\ ~ (forall (JSON : Type) (get : string -> result Response)
               (json : Response -> result JSON) (url : string) (a : Response),
          get url = Ok a ->
          ~ (200 <= status_code a < 300) ->
          exists msg, get_json get json url = Raise (RequestException msg)).
Proof.
  cbv zeta. split; [simpl; lia|]. split; [reflexivity|].
  intros H.
  destruct (H (list Z)
              (fun _ => Ok {| status_code := 304; content := "[]" |})
              (fun _ => Ok []) "" {| status_code := 304; content := "[]" |}
              eq_refl ltac:(simpl; lia)) as [msg Hmsg].
  discriminate Hmsg.
Qed.

(** C8, amended.  [get_json] raises a [RequestException] whenever
    [requests.get] raises one or the status of the response is in 400..599;
    on a response with any other status it returns the decoded JSON value
    unchanged when decoding succeeds, and raises the [ValueError] with the
    fixed message when decoding raises a [ValueError] that is not a
    [RequestException].  Every call ends in exactly one of: a value, a
    [RequestException], that [ValueError], or an exception of the [try]
    block that is of neither class, propagated unchanged. *)
Theorem get_json_outcomes
  (JSON : Type) (requests_get : string -> result Response)
  (response_json : Response -> result JSON) (url : string) :
  let fetch := get_json requests_get response_json in
  (forall e,
      requests_get url = Raise e -> is_RequestException e = true ->
      fetch url = Raise (RequestException ("Request error: " ++ message e)))
  /\ (forall answer,
        requests_get url = Ok answer -> rejected_status answer = true ->
        exists msg, fetch url = Raise (RequestException msg))
  /\ (forall answer text,
        requests_get url = Ok answer -> rejected_status answer = false ->
        response_json answer = Ok text ->
        fetch url = Ok text)
  /\ (forall answer e,
        requests_get url = Ok answer -> rejected_status answer = false ->
        response_json answer = Raise e ->
        is_RequestException e = false -> is_ValueError e = true ->
        fetch url = Raise (ValueError "The response is not valid JSON."))
  /\ ((exists text, fetch url = Ok text)
      \/ (exists msg, fetch url = Raise (RequestException msg))
      \/ fetch url = Raise (ValueError "The response is not valid JSON.")
      \/ (exists e, fetch url = Raise e
                    /\ get_json_try requests_get response_json url = Raise e
                    /\ is_RequestException e = false
                    /\ is_ValueError e = false))
  /\ (forall msg msg', RequestException msg <> ValueError msg')
  /\ (forall msg e,
        is_RequestException e = false -> is_ValueError e = false ->
        RequestException msg <> e /\ ValueError msg <> e).
Proof.
  cbv zeta. unfold get_json.
  split; [|split; [|split; [|split; [|split; [|split]]]]].
  - intros e Hget He. unfold get_json_try. rewrite Hget. cbn [bind].
    rewrite He. reflexivity.
  - intros answer Hget Hstatus.
    rewrite (get_json_try_answer _ _ _ _ _ Hget).
    destruct (raise_for_status_rejected answer Hstatus) as [msg Hmsg].
    rewrite Hmsg. cbn. eexists. reflexivity.
  - intros answer text Hget Hstatus Hjson.
    rewrite (get_json_try_answer _ _ _ _ _ Hget).
    rewrite (raise_for_status_passed answer Hstatus), Hjson. reflexivity.
  - intros answer e Hget Hstatus Hjson Hreq Hval.
    rewrite (get_json_try_answer _ _ _ _ _ Hget).
    rewrite (raise_for_status_passed answer Hstatus), Hjson. cbn [bind].
    rewrite Hreq, Hval. reflexivity.
  - destruct (get_json_try requests_get response_json url) as [text|e].
    + left. eexists. reflexivity.
    + destruct (is_RequestException e) eqn:Hreq.
      * right. left. eexists. reflexivity.
      * destruct (is_ValueError e) eqn:Hval.
        -- right. right. left. reflexivity.
        -- right. right. right. exists e. auto.
  - intros msg msg'. discriminate.
  - intros msg e Hreq Hval. split; intros <-; discriminate.
Qed.

Lemma get_json_outcomes_witness :
  exists msg,
    get_json (fun _ => Ok {| status_code := 404; content := "" |})
             (fun _ => Ok (@nil Z)) (get_url_event "x")
    = Raise (RequestException msg).
Proof.
  apply (proj1 (proj2 (get_json_outcomes (list Z)
           (fun _ => Ok {| status_code := 404; content := "" |})
           (fun _ => Ok []) (get_url_event "x")))
           {| status_code := 404; content := "" |}); reflexivity.
Defined.

(** ** Further properties of [time_conversion] *)

Section FieldTexts.

(** A text [int] accepts holds neither separator. *)
Lemma parse_int_without (sep : ascii) (s : string) (v : Z) :
  int_char sep = false ->
  Py.parse_int s = Some v -> without sep s = true.
Proof.
  intros Hsep Hs. unfold without.
  apply (all_chars_impl int_char); [|exact (parse_int_chars s v Hs)].
  intros c Hc. destruct (Ascii.eqb_spec c sep) as [->|_];
    [congruence|reflexivity].
Qed.

Variables (ss ts : string) (sec t : Z).
Hypothesis ss_value : Py.parse_int ss = Some sec.
Hypothesis ts_value : Py.parse_int ts = Some t.

Lemma last_text_without_colon : without ":" (ss ++ "." ++ ts) = true.
Proof.
  change ("." ++ ts) with (String "." ts).
  rewrite without_app, without_cons.
  rewrite (parse_int_without ":" ss sec), (parse_int_without ":" ts t)
    by (reflexivity || assumption).
  reflexivity.
Qed.

Lemma split_dot_texts : Py.split "." (ss ++ "." ++ ts) = [ss; ts].
Proof.
  change ("." ++ ts) with (String "." ts).
  rewrite split_at by (apply (parse_int_without "." ss sec);
                       (reflexivity || assumption)).
  rewrite split_without by (apply (parse_int_without "." ts t);
                            (reflexivity || assumption)).
  reflexivity.
Qed.

Lemma time_fields_one :
  time_fields (ss ++ "." ++ ts) = Some (0, 0, sec, t).
Proof.
  unfold time_fields. cbv zeta.
  rewrite (split_without ":") by apply last_text_without_colon.
  rewrite split_dot_texts, ss_value, ts_value. reflexivity.
Qed.

Lemma time_fields_two (ms : string) (m : Z) :
  Py.parse_int ms = Some m ->
  time_fields (ms ++ ":" ++ ss ++ "." ++ ts) = Some (0, m, sec, t).
Proof.
  intros Hm. unfold time_fields. cbv zeta.
  change (":" ++ ss ++ "." ++ ts) with (String ":" (ss ++ "." ++ ts)).
  rewrite split_at by (apply (parse_int_without ":" ms m);
                       (reflexivity || assumption)).
  rewrite (split_without ":") by apply last_text_without_colon.
  rewrite Hm, split_dot_texts, ss_value, ts_value. reflexivity.
Qed.

Lemma time_fields_three (hs ms : string) (h m : Z) :
  Py.parse_int hs = Some h ->
  Py.parse_int ms = Some m ->
  time_fields (hs ++ ":" ++ ms ++ ":" ++ ss ++ "." ++ ts)
  = Some (h, m, sec, t).
Proof.
  intros Hh Hm. unfold time_fields. cbv zeta.
  change (":" ++ ms ++ ":" ++ ss ++ "." ++ ts)
    with (String ":" (ms ++ String ":" (ss ++ "." ++ ts))).
  rewrite split_at by (apply (parse_int_without ":" hs h);
                       (reflexivity || assumption)).
  rewrite split_at by (apply (parse_int_without ":" ms m);
                       (reflexivity || assumption)).
  rewrite (split_without ":") by apply last_text_without_colon.
  rewrite Hh, Hm, split_dot_texts, ss_value, ts_value. reflexivity.
Qed.

End FieldTexts.

Section AcceptedFields.

Lemma fields_accepted (s : string) (h m sec t : Z) :
  time_fields s = Some (h, m, sec, t) ->
  0 <= h -> 0 <= m < 60 -> 0 <= sec < 60 -> 0 <= t < 10 ->
  time_conversion s = Ok (h * 36000 + m * 600 + sec * 10 + t).
Proof.
  intros Hfields Hh Hm Hs Ht.
  pose proof (time_conversion_cases s) as Hcases. rewrite Hfields in Hcases.
  destruct (range_checks_valid h m sec t) as [[Hv _]|[Hv [msg Hr]]].
  - cbv zeta in Hv. rewrite Hv in Hcases. exact Hcases.
  - rewrite range_checks_ok in Hr by assumption. discriminate Hr.
Qed.

Lemma accepted_fields (s : string) (n : Z) :
  time_conversion s = Ok n ->
  exists h m sec t,
    time_fields s = Some (h, m, sec, t)
    /\ 0 <= h /\ 0 <= m < 60 /\ 0 <= sec < 60 /\ 0 <= t < 10
    /\ n = h * 36000 + m * 600 + sec * 10 + t.
Proof.
  intros Hok. pose proof (time_conversion_cases s) as Hcases.
  destruct (time_fields s) as [[[[h m] sec] t]|]; [|congruence].
  destruct (valid_time _) eqn:Hvalid; [|congruence].
  destruct (valid_time_bounds _ Hvalid) as (Hh & Hm & Hs & Ht).
  cbn [tv_hours tv_minutes tv_seconds tv_tenths] in *.
  exists h, m, sec, t. unfold encode in Hcases.
  repeat split; try lia. congruence.
Qed.

Lemma rejected_fields (s : string) :
  time_fields s = None -> time_conversion s = Raise (ValueError msg_uniform).
Proof.
  intros Hfields. pose proof (time_conversion_cases s) as Hcases.
  rewrite Hfields in Hcases. exact Hcases.
Qed.

Lemma one_text_accepted (ss ts : string) (sec t : Z) :
  Py.parse_int ss = Some sec -> Py.parse_int ts = Some t ->
  0 <= sec < 60 -> 0 <= t < 10 ->
  time_conversion (ss ++ "." ++ ts) = Ok (sec * 10 + t).
Proof.
  intros Hss Hts Hs Ht.
  replace (sec * 10 + t) with (0 * 36000 + 0 * 600 + sec * 10 + t) by lia.
  apply fields_accepted; try assumption; try lia.
  apply time_fields_one; assumption.
Qed.

Lemma two_texts_accepted (ms ss ts : string) (m sec t : Z) :
  Py.parse_int ms = Some m ->
  Py.parse_int ss = Some sec -> Py.parse_int ts = Some t ->
  0 <= m < 60 -> 0 <= sec < 60 -> 0 <= t < 10 ->
  time_conversion (ms ++ ":" ++ ss ++ "." ++ ts)
  = Ok (m * 600 + sec * 10 + t).
Proof.
  intros Hms Hss Hts Hm Hs Ht.
  replace (m * 600 + sec * 10 + t)
    with (0 * 36000 + m * 600 + sec * 10 + t) by lia.
  apply fields_accepted; try assumption; try lia.
  apply time_fields_two; assumption.
Qed.

Lemma three_texts_accepted (hs ms ss ts : string) (h m sec t : Z) :
  Py.parse_int hs = Some h -> Py.parse_int ms = Some m ->
  Py.parse_int ss = Some sec -> Py.parse_int ts = Some t ->
  0 <= h -> 0 <= m < 60 -> 0 <= sec < 60 -> 0 <= t < 10 ->
  time_conversion (hs ++ ":" ++ ms ++ ":" ++ ss ++ "." ++ ts)
  = Ok (h * 36000 + m * 600 + sec * 10 + t).
Proof.
  intros Hhs Hms Hss Hts Hh Hm Hs Ht.
  apply fields_accepted; try assumption.
  apply time_fields_three; assumption.
Qed.

End AcceptedFields.

(** X1.  Any four texts that [int] reads as an hours value [h >= 0], a
    minutes value and a seconds value in 0..59 and a tenths value in 0..9,
    joined as [h:m:s.t], are accepted with the value
    [h*36000 + m*600 + s*10 + t]; so are [m:s.t] and [s.t], with the absent
    fields counted as 0.  The texts may be padded with zeros, carry a sign,
    white space or underscores. *)
Theorem readable_fields_accepted
  (hs ms ss ts : string) (h m sec t : Z) :
  Py.parse_int hs = Some h -> Py.parse_int ms = Some m ->
  Py.parse_int ss = Some sec -> Py.parse_int ts = Some t ->
  0 <= h -> 0 <= m < 60 -> 0 <= sec < 60 -> 0 <= t < 10 ->
  time_conversion (hs ++ ":" ++ ms ++ ":" ++ ss ++ "." ++ ts)
  = Ok (h * 36000 + m * 600 + sec * 10 + t)
  /\ time_conversion (ms ++ ":" ++ ss ++ "." ++ ts)
     = Ok (m * 600 + sec * 10 + t)
  /\ time_conversion (ss ++ "." ++ ts) = Ok (sec * 10 + t).
Proof.
  intros Hhs Hms Hss Hts Hh Hm Hs Ht. repeat split.
  - apply (three_texts_accepted hs ms ss ts h m sec t); assumption.
  - apply (two_texts_accepted ms ss ts m sec t); assumption.
  - apply (one_text_accepted ss ts sec t); assumption.
Qed.

Lemma readable_fields_accepted_witness :
  time_conversion (" +1" ++ ":" ++ "0_2" ++ ":" ++ "33 " ++ "." ++ "04")
  = Ok (1 * 36000 + 2 * 600 + 33 * 10 + 4)
  /\ time_conversion ("0_2" ++ ":" ++ "33 " ++ "." ++ "04")
     = Ok (2 * 600 + 33 * 10 + 4)
  /\ time_conversion ("33 " ++ "." ++ "04") = Ok (33 * 10 + 4).
Proof.
  apply (readable_fields_accepted " +1" "0_2" "33 " "04" 1 2 33 4);
    (reflexivity || lia).
Defined.

Section SegmentCount.

Lemma time_fields_segments (s : string) (h m sec t : Z) :
  time_fields s = Some (h, m, sec, t) ->
  match Py.split ":" s with
  | [_] => h = 0 /\ m = 0
  | [_; _] => h = 0
  | [_; _; _] => True
  | _ => False
  end.
Proof.
  unfold time_fields.
  destruct (Py.split ":" s) as [|a [|b [|c [|d l]]]]; try discriminate;
    repeat match goal with
      | |- context [Py.parse_int ?y] => destruct (Py.parse_int y)
      | |- context [Py.split "." ?y] =>
          destruct (Py.split "." y) as [|? [|? [|? ?]]]
      end; try discriminate; intros [= <- <- _ _]; auto.
Qed.

(** A zero segment in front of one or two segments leaves the fields as
    they are. *)
Lemma time_fields_zero_segment (s : string) (x : Z * Z * Z * Z) :
  (List.length (Py.split ":" s) <= 2)%nat ->
  time_fields s = Some x ->
  time_fields ("0:" ++ s) = Some x.
Proof.
  intros Hlen. unfold time_fields.
  change (Py.split ":" ("0:" ++ s)) with ("0" :: Py.split ":" s).
  destruct (Py.split ":" s) as [|a [|b [|c l]]].
  - discriminate.
  - change (Py.parse_int "0") with (Some 0). intros H. exact H.
  - change (Py.parse_int "0") with (Some 0).
    destruct (Py.parse_int a); intros H; exact H.
  - simpl in Hlen. lia.
Qed.

End SegmentCount.

(** X4.  [time_conversion] does not tell a superfluous zero segment: an
    accepted string with one or two segments is accepted with the same value
    when ["0:"] is put in front of it. *)
Theorem zero_segment_ignored (s : string) (n : Z) :
  time_conversion s = Ok n ->
  (List.length (Py.split ":" s) <= 2)%nat ->
  time_conversion ("0:" ++ s) = Ok n.
Proof.
  intros Hok Hlen.
  destruct (accepted_fields s n Hok)
    as (h & m & sec & t & Hfields & Hh & Hm & Hs & Ht & ->).
  apply fields_accepted; try assumption.
  apply time_fields_zero_segment; assumption.
Qed.

Lemma zero_segment_ignored_witness :
  time_conversion ("0:" ++ "2:05.1") = Ok 1251.
Proof.
  apply (zero_segment_ignored "2:05.1" 1251); [reflexivity|simpl; lia].
Defined.

(** X5.  The number of segments bounds the value: an accepted string
    without a colon is worth less than 600 tenths (one minute), one with a
    single colon less than 36000 (one hour); an accepted string never has
    more than three segments. *)
Theorem value_bounded_by_segments (s : string) (n : Z) :
  time_conversion s = Ok n ->
  (1 <= List.length (Py.split ":" s) <= 3)%nat
  /\ (List.length (Py.split ":" s) = 1%nat -> n < 600)
  /\ (List.length (Py.split ":" s) = 2%nat -> n < 36000).
Proof.
  intros Hok.
  destruct (accepted_fields s n Hok)
    as (h & m & sec & t & Hfields & Hh & Hm & Hs & Ht & ->).
  pose proof (time_fields_segments s h m sec t Hfields) as Hseg.
  destruct (Py.split ":" s) as [|a [|b [|c [|d l]]]]; simpl;
    try contradiction; repeat split; intros; try lia; try discriminate.
Qed.

Lemma value_bounded_by_segments_witness :
  (1 <= List.length (Py.split ":" "59:59.9") <= 3)%nat
  /\ (List.length (Py.split ":" "59:59.9") = 1%nat -> 35999 < 600)
  /\ (List.length (Py.split ":" "59:59.9") = 2%nat -> 35999 < 36000).
Proof. apply (value_bounded_by_segments "59:59.9" 35999). reflexivity. Defined.

(** X6.  Writing the value of an accepted string with at most one colon
    and reading it again gives the same value: [time_conversion2] after
    [time_conversion] normalises such a string without changing its
    value. *)
Theorem reformatting_keeps_value (s : string) (n : Z) :
  time_conversion s = Ok n ->
  (List.length (Py.split ":" s) <= 2)%nat ->
  time_conversion (time_conversion2 n) = Ok n.
Proof.
  intros Hok Hlen.
  destruct (accepted_fields s n Hok)
    as (h & m & sec & t & Hfields & Hh & Hm & Hs & Ht & ->).
  pose proof (time_fields_segments s h m sec t Hfields) as Hseg.
  assert (Hzero : h = 0).
  { destruct (Py.split ":" s) as [|a [|b [|c l]]];
      try contradiction; try tauto. simpl in Hlen. lia. }
  subst h. rewrite parse_format by lia.
  destruct (Z.ltb_spec (0 * 36000 + m * 600 + sec * 10 + t) 36000);
    [reflexivity|lia].
Qed.

Lemma reformatting_keeps_value_witness :
  time_conversion (time_conversion2 1251) = Ok 1251.
Proof.
  apply (reformatting_keeps_value " 2:5.01" 1251); [reflexivity|simpl; lia].
Defined.

Section FormatOutput.

Variable n : Z.

(** The fields of the string [time_conversion2] writes. *)
Lemma time_fields_time_conversion2 :
  time_fields (time_conversion2 n)
  = Some (0, Z.max 0 (n / 600), (n mod 600) / 10, n mod 10).
Proof.
  pose proof (seconds_range n) as Hs. pose proof (tenth_range n) as Ht.
  destruct (Z.lt_ge_cases 0 (n / 600)) as [Hm|Hm].
  - rewrite time_conversion2_minutes by exact Hm.
    rewrite Z.max_r by lia.
    apply time_fields_two;
      first [apply parse_int_str | apply parse_int_format_0d; lia].
  - rewrite time_conversion2_seconds by exact Hm.
    rewrite Z.max_l by lia.
    apply time_fields_one; apply parse_int_str.
Qed.

Lemma time_conversion2_chars :
  all_chars digit_or_separator (time_conversion2 n) = true.
Proof.
  pose proof (seconds_range n) as Hs. pose proof (tenth_range n) as Ht.
  assert (Hd : forall x, all_chars Py.is_digit x = true ->
                         all_chars digit_or_separator x = true).
  { intros x. apply all_chars_impl. intros c Hc.
    unfold digit_or_separator. rewrite Hc. reflexivity. }
  destruct (Z.lt_ge_cases 0 (n / 600)) as [Hm|Hm].
  - rewrite time_conversion2_minutes by exact Hm.
    change (":" ++ ?x) with (String ":" x).
    change ("." ++ ?x) with (String "." x).
    rewrite all_chars_app. cbn [all_chars]. rewrite all_chars_app.
    cbn [all_chars].
    rewrite !Hd by (first [apply str_all_digits; lia
                          |apply format_0d_all_digits; lia]).
    reflexivity.
  - rewrite time_conversion2_seconds by exact Hm.
    change ("." ++ ?x) with (String "." x).
    rewrite all_chars_app. cbn [all_chars].
    rewrite !Hd by (apply str_all_digits; lia).
    reflexivity.
Qed.

End FormatOutput.

(** X7.  [time_conversion2] is injective on the non-negative integers:
    two different times are never written as the same string, also from one
    hour on, where the strings cannot be read back. *)
Theorem time_conversion2_injective (n m : Z) :
  0 <= n -> 0 <= m ->
  time_conversion2 n = time_conversion2 m -> n = m.
Proof.
  intros Hn Hm Heq.
  pose proof (time_fields_time_conversion2 n) as Fn.
  pose proof (time_fields_time_conversion2 m) as Fm.
  rewrite Heq, Fm in Fn. injection Fn as H1 H2 H3.
  assert (0 <= n / 600) by (apply Z.div_pos; lia).
  assert (0 <= m / 600) by (apply Z.div_pos; lia).
  rewrite !Z.max_r in H1 by assumption.
  revert H1 H2 H3. Z.to_euclidean_division_equations. lia.
Qed.

Lemma time_conversion2_injective_witness : 36000 = 36000.
Proof.
  apply (time_conversion2_injective 36000 36000); (lia || reflexivity).
Defined.

(** X8.  A negative input is not rejected by [time_conversion2]: it is
    written like its residue modulo 600, without a sign, so that reading the
    string back gives [n mod 600] and not [n]. *)
Theorem negative_written_as_residue (n : Z) :
  n < 0 ->
  time_conversion2 n = time_conversion2 (n mod 600)
  /\ time_conversion (time_conversion2 n) = Ok (n mod 600).
Proof.
  intros Hn.
  assert (Hr : 0 <= n mod 600 < 600) by (apply Z.mod_pos_bound; lia).
  assert (Heq : time_conversion2 n = time_conversion2 (n mod 600)).
  { rewrite (time_conversion2_seconds n),
      (time_conversion2_seconds (n mod 600)).
    - rewrite Z.mod_mod by lia.
      replace ((n mod 600) mod 10) with (n mod 10)
        by (Z.to_euclidean_division_equations; lia).
      reflexivity.
    - rewrite Z.div_small by lia. lia.
    - Z.to_euclidean_division_equations. lia. }
  split; [exact Heq|]. rewrite Heq, parse_format by lia.
  destruct (Z.ltb_spec (n mod 600) 36000); [reflexivity|lia].
Qed.

Lemma negative_written_as_residue_witness :
  time_conversion2 (-1) = time_conversion2 ((-1) mod 600)
  /\ time_conversion (time_conversion2 (-1)) = Ok ((-1) mod 600).
Proof. apply (negative_written_as_residue (-1)). lia. Defined.

(** X9.  Whatever the integer, negative ones included, the string
    [time_conversion2] writes holds only digits, [':'] and ['.'], and ends
    with a dot and the single digit of [n mod 10]. *)
Theorem time_conversion2_shape (n : Z) :
  all_chars digit_or_separator (time_conversion2 n) = true
  /\ exists body,
       time_conversion2 n = body ++ "." ++ one_digit (n mod 10)
       /\ without "." body = true.
Proof.
  split; [apply time_conversion2_chars|].
  pose proof (seconds_range n) as Hs. pose proof (tenth_range n) as Ht.
  destruct (Z.lt_ge_cases 0 (n / 600)) as [Hm|Hm].
  - exists (Py.str (n / 600) ++ ":" ++ Py.format_0d 2 ((n mod 600) / 10)).
    rewrite time_conversion2_minutes by exact Hm.
    rewrite (str_small (n mod 10)) by exact Ht. split.
    + rewrite append_assoc. reflexivity.
    + change (":" ++ ?x) with (String ":" x).
      rewrite without_app, without_cons.
      rewrite !(digits_without ".")
        by (first [reflexivity | apply str_all_digits; lia
                  | apply format_0d_all_digits; lia]).
      reflexivity.
  - exists (Py.str ((n mod 600) / 10)).
    rewrite time_conversion2_seconds by exact Hm.
    rewrite (str_small (n mod 10)) by exact Ht. split; [reflexivity|].
    apply digits_without; [reflexivity|apply str_all_digits; lia].
Qed.

(** ** Separators of an accepted string *)

Section Separators.

Lemma count_split_sep (sep : ascii) (s : string) :
  List.length (Py.split sep s) = S (count_char sep s).
Proof.
  induction s as [|c s IH]; simpl; [reflexivity|].
  destruct (Ascii.eqb c sep); simpl.
  - rewrite IH. reflexivity.
  - destruct (Py.split sep s) as [|h t]; [discriminate IH|exact IH].
Qed.

Lemma count_split_other (sep c : ascii) (s : string) :
  Ascii.eqb sep c = false ->
  count_char c s = list_sum (map (count_char c) (Py.split sep s)).
Proof.
  intros Hne. induction s as [|d s IH]; simpl; [reflexivity|].
  destruct (Ascii.eqb_spec d sep) as [->|Hd].
  - rewrite Hne. simpl. exact IH.
  - pose proof (split_nonempty sep s) as Hnil.
    destruct (Py.split sep s) as [|h t]; [congruence|].
    simpl in *. destruct (Ascii.eqb d c); lia.
Qed.

Lemma count_without (c : ascii) (s : string) :
  without c s = true -> count_char c s = O.
Proof.
  unfold without. induction s as [|d s IH]; simpl; [reflexivity|].
  rewrite andb_true_iff, negb_true_iff. intros [-> Hs]. auto.
Qed.

Lemma count_parse_int (c : ascii) (s : string) (v : Z) :
  int_char c = false -> Py.parse_int s = Some v -> count_char c s = O.
Proof.
  intros Hc Hs. apply count_without. exact (parse_int_without c s v Hc Hs).
Qed.

(** The texts behind the fields that were read. *)
Lemma time_fields_texts (s : string) (x : Z * Z * Z * Z) :
  time_fields s = Some x ->
  exists leading st ss ts,
    Py.split ":" s = (leading ++ [st])%list
    /\ (List.length leading <= 2)%nat
    /\ Forall (fun p => exists v, Py.parse_int p = Some v) leading
    /\ Py.split "." st = [ss; ts]
    /\ (exists v, Py.parse_int ss = Some v)
    /\ (exists v, Py.parse_int ts = Some v).
Proof.
  unfold time_fields. intros H.
  destruct (Py.split ":" s) as [|a [|b [|c [|d l]]]]; try discriminate;
    repeat match type of H with
      | context [Py.parse_int ?y] => destruct (Py.parse_int y) eqn:?
      | context [Py.split "." ?y] =>
          destruct (Py.split "." y) as [|? [|? [|? ?]]] eqn:?
      end; try discriminate.
  - exists [], a. do 2 eexists. simpl. eauto 10.
  - exists [a], b. do 2 eexists. simpl. repeat split; eauto.
  - exists [a; b], c. do 2 eexists. simpl. repeat split; eauto 10.
Qed.

Lemma split_snoc_sep (sep : ascii) (s : string) :
  Py.split sep (s ++ String sep EmptyString)
  = (Py.split sep s ++ [EmptyString])%list.
Proof.
  induction s as [|c s IH]; simpl.
  - rewrite Ascii.eqb_refl. reflexivity.
  - destruct (Ascii.eqb c sep).
    + rewrite IH. reflexivity.
    + rewrite IH. pose proof (split_nonempty sep s) as Hnil.
      destruct (Py.split sep s) as [|h t]; [congruence|reflexivity].
Qed.

Lemma split_snoc_other (sep c : ascii) (s : string) :
  Ascii.eqb c sep = false ->
  Py.split sep (s ++ String c EmptyString)
  = List.app (List.removelast (Py.split sep s))
             [List.last (Py.split sep s) EmptyString ++ String c EmptyString].
Proof.
  intros Hne. induction s as [|d s IH].
  - simpl. rewrite Hne. reflexivity.
  - cbn [String.append Py.split]. rewrite IH.
    pose proof (split_nonempty sep s) as Hnil.
    destruct (Ascii.eqb d sep).
    + destruct (Py.split sep s) as [|h t]; [congruence|reflexivity].
    + destruct (Py.split sep s) as [|h [|h' t]]; [congruence| |]; reflexivity.
Qed.

End Separators.

(** X10.  An accepted string holds exactly one ['.'] and at most two
    [':']: a time without a fractional part, or with a second dot, is
    rejected whatever its digits. *)
Theorem separators_of_accepted (s : string) (n : Z) :
  time_conversion s = Ok n ->
  count_char "." s = 1%nat /\ (count_char ":" s <= 2)%nat.
Proof.
  intros Hok.
  destruct (accepted_fields s n Hok) as (h & m & sec & t & Hfields & _).
  destruct (time_fields_texts s _ Hfields)
    as (leading & st & ss & ts & Hsplit & Hlen & Hlead & Hdot & _ & _).
  split.
  - rewrite (count_split_other ":" "." s) by reflexivity.
    rewrite Hsplit, map_app, list_sum_app. simpl.
    assert (Hst : count_char "." st = 1%nat).
    { pose proof (count_split_sep "." st) as Hc. rewrite Hdot in Hc.
      simpl in Hc. lia. }
    assert (Hzero : list_sum (map (count_char ".") leading) = 0%nat).
    { clear Hsplit Hlen. induction Hlead as [|p l [v Hv] _ IH]; simpl.
      - reflexivity.
      - rewrite IH, (count_parse_int "." p v) by (reflexivity || assumption).
        reflexivity. }
    lia.
  - pose proof (count_split_sep ":" s) as Hc.
    rewrite Hsplit, length_app in Hc. simpl in Hc. lia.
Qed.

Lemma separators_of_accepted_witness :
  count_char "." "1:02:33.4" = 1%nat /\ (count_char ":" "1:02:33.4" <= 2)%nat.
Proof. apply (separators_of_accepted "1:02:33.4" 37534). reflexivity. Defined.

(** X11.  A string that begins or ends with a separator is rejected: no
    field may be empty at either end. *)
Theorem separator_at_end_rejected (s : string) :
  time_conversion (":" ++ s) = Raise (ValueError msg_uniform)
  /\ time_conversion ("." ++ s) = Raise (ValueError msg_uniform)
  /\ time_conversion (s ++ ":") = Raise (ValueError msg_uniform)
  /\ time_conversion (s ++ ".") = Raise (ValueError msg_uniform).
Proof.
  assert (Hempty : forall v, Py.parse_int EmptyString <> Some v)
    by (intros v; discriminate).
  repeat split; apply rejected_fields.
  - unfold time_fields.
    change (Py.split ":" (":" ++ s)) with (EmptyString :: Py.split ":" s).
    destruct (Py.split ":" s) as [|a [|b [|c l]]]; reflexivity.
  - destruct (time_fields ("." ++ s)) as [x|] eqn:Hfields; [|reflexivity].
    exfalso.
    destruct (time_fields_texts _ _ Hfields)
      as (leading & st & ss & ts & Hsplit & _ & Hlead & Hdot & [v Hss] & _).
    assert (Hhead : exists h t,
               Py.split ":" ("." ++ s) = String "." h :: t).
    { change (Py.split ":" ("." ++ s))
        with (match Py.split ":" s with
              | h :: t => String "." h :: t
              | [] => [String "." EmptyString]
              end).
      destruct (Py.split ":" s); eauto. }
    destruct Hhead as (h & t & Hhead). rewrite Hhead in Hsplit.
    destruct leading as [|p l]; simpl in Hsplit;
      injection Hsplit as Hp Hl.
    + subst st.
      change (Py.split "." (String "." h))
        with (EmptyString :: Py.split "." h) in Hdot.
      injection Hdot as Hss' _. subst ss. exact (Hempty v Hss).
    + subst p. inversion Hlead as [|? ? [w Hw] _]; subst.
      discriminate Hw.
  - destruct (time_fields (s ++ ":")) as [x|] eqn:Hfields; [|reflexivity].
    exfalso.
    destruct (time_fields_texts _ _ Hfields)
      as (leading & st & ss & ts & Hsplit & _ & _ & Hdot & _ & _).
    change (s ++ ":") with (s ++ String ":" EmptyString) in Hsplit.
    rewrite split_snoc_sep in Hsplit.
    apply app_inj_tail in Hsplit. destruct Hsplit as [_ <-].
    discriminate Hdot.
  - destruct (time_fields (s ++ ".")) as [x|] eqn:Hfields; [|reflexivity].
    exfalso.
    destruct (time_fields_texts _ _ Hfields)
      as (leading & st & ss & ts & Hsplit & _ & _ & Hdot & _ & [v Hts]).
    change (s ++ ".") with (s ++ String "." EmptyString) in Hsplit.
    rewrite split_snoc_other in Hsplit by reflexivity.
    apply app_inj_tail in Hsplit. destruct Hsplit as [_ <-].
    rewrite split_snoc_sep in Hdot.
    change [ss; ts] with ([ss] ++ [ts])%list in Hdot.
    apply app_inj_tail in Hdot. destruct Hdot as [_ <-].
    exact (Hempty v Hts).
Qed.

(** ** Further properties of the URL builders *)

Section Cancellation.

Lemma append_inv_head (a x y : string) : a ++ x = a ++ y -> x = y.
Proof.
  induction a as [|c a IH]; simpl; [tauto|].
  intros [= H]. exact (IH H).
Qed.

Lemma length_append (a b : string) :
  String.length (a ++ b) = (String.length a + String.length b)%nat.
Proof.
  induction a as [|c a IH]; simpl; [reflexivity|]. rewrite IH. reflexivity.
Qed.

Lemma append_inv_tail (a : string) :
  forall x y, x ++ a = y ++ a -> x = y.
Proof.
  induction x as [|c x IH]; intros [|d y] H; simpl in H.
  - reflexivity.
  - apply (f_equal String.length) in H. simpl in H.
    rewrite length_append in H. lia.
  - apply (f_equal String.length) in H. simpl in H.
    rewrite length_append in H. lia.
  - injection H as -> H. f_equal. exact (IH y H).
Qed.

(** Two strings cut at the first occurrence of a character. *)
Lemma first_separator (c : ascii) (a : string) :
  forall b x y,
    without c a = true -> without c b = true ->
    a ++ String c x = b ++ String c y -> a = b /\ x = y.
Proof.
  unfold without.
  induction a as [|d a IH]; intros [|e b] x y Ha Hb H; simpl in *.
  - injection H as ->. auto.
  - injection H as <- _. rewrite Ascii.eqb_refl in Hb. discriminate Hb.
  - injection H as -> _. rewrite Ascii.eqb_refl in Ha. discriminate Ha.
  - injection H as -> H.
    apply andb_true_iff in Ha. apply andb_true_iff in Hb.
    destruct (IH b x y (proj2 Ha) (proj2 Hb) H) as [-> ->]. auto.
Qed.

End Cancellation.

(** X12.  The results, calendar and event builders are injective: two
    different identifiers never give the same URL. *)
Theorem single_identifier_urls_injective :
  (forall a b, get_url_results a = get_url_results b -> a = b)
  /\ (forall a b, get_url_calendar a = get_url_calendar b -> a = b)
  /\ (forall a b, get_url_event a = get_url_event b -> a = b).
Proof.
  repeat split; intros a b H.
  - exact (append_inv_head _ a b H).
  - unfold get_url_calendar in H.
    apply append_inv_tail, append_inv_head in H. exact H.
  - exact (append_inv_head _ a b H).
Qed.

Lemma single_identifier_urls_injective_witness : "2425" = "2425".
Proof.
  apply (proj1 (proj2 single_identifier_urls_injective) "2425" "2425").
  reflexivity.
Defined.

(** X13.  The analytics builder does not escape its identifiers: a race
    identifier that holds ["&TypeId="] gives the URL of another pair of
    identifiers.  The URL determines the pair whenever the race identifiers
    hold no ['&']. *)
Theorem analytics_url_identifiers :
  (forall a b c,
      get_url_analytics (a ++ "&TypeId=" ++ b) c
      = get_url_analytics a (b ++ "&TypeId=" ++ c))
  /\ (forall r1 t1 r2 t2,
        without "&" r1 = true -> without "&" r2 = true ->
        get_url_analytics r1 t1 = get_url_analytics r2 t2 ->
        r1 = r2 /\ t1 = t2).
Proof.
  split.
  - intros a b c. unfold get_url_analytics.
    rewrite !append_assoc. reflexivity.
  - intros r1 t1 r2 t2 H1 H2 H. unfold get_url_analytics in H.
    rewrite !append_assoc in H. apply append_inv_head in H.
    change ("&TypeId=" ++ ?t) with (String "&" ("TypeId=" ++ t)) in H.
    destruct (first_separator "&" r1 r2 _ _ H1 H2 H) as [-> Ht].
    split; [reflexivity|]. exact (append_inv_head _ t1 t2 Ht).
Qed.

Lemma analytics_url_identifiers_witness : "123" = "123" /\ "STTM" = "STTM".
Proof.
  apply (proj2 analytics_url_identifiers "123" "STTM" "123" "STTM");
    reflexivity.
Defined.

(** X14.  The four builders never give the same URL, whatever the
    identifiers: the endpoint kind can be read off the URL. *)
Theorem endpoint_kinds_distinct (a b c d e : string) :
  get_url_analytics a b <> get_url_results c
  /\ get_url_analytics a b <> get_url_calendar d
  /\ get_url_analytics a b <> get_url_event e
  /\ get_url_results c <> get_url_calendar d
  /\ get_url_results c <> get_url_event e
  /\ get_url_calendar d <> get_url_event e.
Proof.
  unfold get_url_analytics, get_url_results, get_url_calendar, get_url_event.
  repeat split; intros H; rewrite ?append_assoc in H;
    apply (append_inv_head api_base) in H; discriminate H.
Qed.

(** ** Further properties of [get_json] *)

Section GetJsonOutcomes.

Variable JSON : Type.
Variable requests_get : string -> result Response.
Variable response_json : Response -> result JSON.

(** The handlers never turn an exception into a value. *)
Lemma get_json_ok (url : string) (text : JSON) :
  get_json requests_get response_json url = Ok text <->
  get_json_try requests_get response_json url = Ok text.
Proof.
  unfold get_json.
  destruct (get_json_try requests_get response_json url) as [x|e].
  - tauto.
  - destruct (is_RequestException e); [|destruct (is_ValueError e)];
      split; discriminate.
Qed.

Lemma get_json_try_ok (url : string) (text : JSON) :
  get_json_try requests_get response_json url = Ok text <->
  exists answer,
    requests_get url = Ok answer
    /\ rejected_status answer = false
    /\ response_json answer = Ok text.
Proof.
  unfold get_json_try. split.
  - destruct (requests_get url) as [answer|e]; cbn [bind]; [|discriminate].
    destruct (rejected_status answer) eqn:Hstatus.
    + destruct (raise_for_status_rejected answer Hstatus) as [msg ->].
      discriminate.
    + rewrite (raise_for_status_passed answer Hstatus). cbn [bind].
      destruct (response_json answer) as [x|e] eqn:Hjson; cbn [bind];
        [|discriminate].
      intros [= ->]. exists answer. auto.
  - intros (answer & -> & Hstatus & Hjson). cbn [bind].
    rewrite (raise_for_status_passed answer Hstatus), Hjson. reflexivity.
Qed.

(** What the [try] block raises when no body is decoded. *)
Lemma get_json_try_undecoded (url : string) :
  (exists e, requests_get url = Raise e)
  \/ (exists answer,
        requests_get url = Ok answer /\ rejected_status answer = true) ->
  exists e,
    forall (J : Type) (json : Response -> result J),
      get_json_try requests_get json url = Raise e.
Proof.
  intros [[e Hget]|(answer & Hget & Hstatus)].
  - exists e. intros J json. unfold get_json_try. rewrite Hget. reflexivity.
  - destruct (raise_for_status_rejected answer Hstatus) as [msg Hmsg].
    exists (Exn true false msg). intros J json.
    unfold get_json_try. rewrite Hget. cbn [bind]. rewrite Hmsg. reflexivity.
Qed.

End GetJsonOutcomes.

(** X15.  [get_json] returns a value exactly when [requests.get] returns a
    response, its status is not in 400..599, and the decoder returns that
    value for it: no handler ever turns a failure into a value. *)
Theorem get_json_value_iff
  (JSON : Type) (requests_get : string -> result Response)
  (response_json : Response -> result JSON) (url : string) (text : JSON) :
  get_json requests_get response_json url = Ok text <->
  exists answer,
    requests_get url = Ok answer
    /\ rejected_status answer = false
    /\ response_json answer = Ok text.
Proof.
  rewrite get_json_ok. apply get_json_try_ok.
Qed.

Lemma get_json_value_iff_witness :
  get_json (fun _ => Ok {| status_code := 200; content := "[]" |})
           (fun _ => Ok (@nil Z)) (get_url_calendar "2425")
  = Ok [].
Proof.
  apply (proj2 (get_json_value_iff (list Z)
           (fun _ => Ok {| status_code := 200; content := "[]" |})
           (fun _ => Ok []) (get_url_calendar "2425") [])).
  exists {| status_code := 200; content := "[]" |}.
  repeat split; reflexivity.
Defined.

(** X16.  When [requests.get] raises, or the status of the response is in
    400..599, the body is never decoded: [get_json] raises the same
    exception whatever the decoder would do. *)
Theorem undecoded_on_failure
  (requests_get : string -> result Response) (url : string) :
  (exists e, requests_get url = Raise e)
  \/ (exists answer,
        requests_get url = Ok answer /\ rejected_status answer = true) ->
  exists e,
    forall (JSON : Type) (response_json : Response -> result JSON),
      get_json requests_get response_json url = Raise e.
Proof.
  intros H. destruct (get_json_try_undecoded requests_get url H) as [e He].
  exists (if is_RequestException e
          then RequestException ("Request error: " ++ message e)
          else if is_ValueError e
          then ValueError "The response is not valid JSON."
          else e).
  intros JSON response_json. unfold get_json. rewrite He.
  destruct (is_RequestException e); [|destruct (is_ValueError e)];
    reflexivity.
Qed.

Lemma undecoded_on_failure_witness :
  exists e,
    forall (JSON : Type) (response_json : Response -> result JSON),
      get_json (fun _ => Ok {| status_code := 500; content := "{}" |})
               response_json (get_url_results "1")
      = Raise e.
Proof.
  apply (undecoded_on_failure
           (fun _ => Ok {| status_code := 500; content := "{}" |})).
  right. exists {| status_code := 500; content := "{}" |}.
  split; reflexivity.
Defined.

(** X17.  The [RequestException] clause comes first: when decoding raises
    an exception that is both a [RequestException] and a [ValueError],
    [get_json] raises a [RequestException] with the prefixed message, and
    not the [ValueError] for invalid JSON. *)
Theorem request_exception_clause_first
  (JSON : Type) (requests_get : string -> result Response)
  (response_json : Response -> result JSON) (url : string)
  (answer : Response) (e : exn) :
  requests_get url = Ok answer ->
  rejected_status answer = false ->
  response_json answer = Raise e ->
  is_RequestException e = true ->
  get_json requests_get response_json url
  = Raise (RequestException ("Request error: " ++ message e))
  /\ get_json requests_get response_json url
     <> Raise (ValueError "The response is not valid JSON.").
Proof.
  intros Hget Hstatus Hjson Hreq.
  assert (Hres : get_json requests_get response_json url
                 = Raise (RequestException ("Request error: " ++ message e))).
  { unfold get_json. rewrite (get_json_try_answer _ _ _ _ _ Hget).
    rewrite (raise_for_status_passed answer Hstatus), Hjson. cbn [bind].
    rewrite Hreq. reflexivity. }
  split; [exact Hres|]. rewrite Hres. discriminate.
Qed.

Lemma request_exception_clause_first_witness :
  let answer := {| status_code := 200; content := "<html>" |} in
  let e := Exn true true "Expecting value" in
  get_json (fun _ => Ok answer) (fun _ => @Raise (list Z) e) "u"
  = Raise (RequestException ("Request error: " ++ message e))
  /\ get_json (fun _ => Ok answer) (fun _ => @Raise (list Z) e) "u"
     <> Raise (ValueError "The response is not valid JSON.").
Proof.
  cbv zeta.
  apply (request_exception_clause_first (list Z)
           (fun _ => Ok {| status_code := 200; content := "<html>" |})
           (fun _ => Raise (Exn true true "Expecting value")) "u"
           {| status_code := 200; content := "<html>" |}
           (Exn true true "Expecting value")); reflexivity.
Defined.

(** X18.  A [ValueError] that is not a [RequestException] and is raised by
    [requests.get] itself, before any response exists, is reported with the
    message of the JSON clause. *)
Theorem early_value_error_reported_as_json
  (JSON : Type) (requests_get : string -> result Response)
  (response_json : Response -> result JSON) (url : string) (e : exn) :
  requests_get url = Raise e ->
  is_RequestException e = false -> is_ValueError e = true ->
  get_json requests_get response_json url
  = Raise (ValueError "The response is not valid JSON.").
Proof.
  intros Hget Hreq Hval. unfold get_json, get_json_try.
  rewrite Hget. cbn [bind]. rewrite Hreq, Hval. reflexivity.
Qed.

Lemma early_value_error_reported_as_json_witness :
  get_json (fun _ => Raise (ValueError "label empty or too long"))
           (fun _ : Response => Ok (@nil Z)) "http://.example.com"
  = Raise (ValueError "The response is not valid JSON.").
Proof.
  apply (early_value_error_reported_as_json (list Z)
           (fun _ => Raise (ValueError "label empty or too long"))
           (fun _ => Ok []) "http://.example.com"
           (ValueError "label empty or too long")); reflexivity.
Defined.

(** ** The conversion limit *)

Section LimitLemmas.

Lemma length_digits_lower (k : nat) :
  forall n, 10 ^ Z.of_nat k <= n -> (k < String.length (Py.digits n))%nat.
Proof.
  induction k as [|k IH]; intros n Hn.
  - simpl in Hn. destruct (digits_starts n ltac:(lia)) as (c & r & -> & _).
    simpl. lia.
  - rewrite pow10_succ in Hn.
    assert (Hpos : 0 < 10 ^ Z.of_nat k) by (apply Z.pow_pos_nonneg; lia).
    rewrite digits_step by lia. rewrite length_append. simpl.
    assert (Hq : 10 ^ Z.of_nat k <= n / 10)
      by (apply Z.div_le_lower_bound; lia).
    specialize (IH _ Hq). lia.
Qed.

Lemma length_digits_upper (k : nat) :
  forall n, 0 <= n < 10 ^ Z.of_nat (S k) ->
            (String.length (Py.digits n) <= S k)%nat.
Proof.
  induction k as [|k IH]; intros n Hn.
  - rewrite digits_small by (simpl in Hn; lia). simpl. lia.
  - destruct (Z.lt_ge_cases n 10) as [Hlt|Hge].
    + rewrite digits_small by lia. simpl. lia.
    + rewrite digits_step by lia. rewrite length_append. simpl.
      rewrite pow10_succ in Hn.
      assert (Hq : 0 <= n / 10 < 10 ^ Z.of_nat (S k)).
      { split; [apply Z.div_pos; lia|apply Z.div_lt_upper_bound; lia]. }
      specialize (IH _ Hq). lia.
Qed.

Variable max_str_digits : nat.

Lemma exceeds_limit_off (d : nat) :
  max_str_digits = O \/ (d <= max_str_digits)%nat ->
  exceeds_limit max_str_digits d = false.
Proof.
  unfold exceeds_limit. intros [->|Hd]; [reflexivity|].
  apply andb_false_iff. right. apply Nat.ltb_ge. exact Hd.
Qed.

Lemma exceeds_limit_on (d : nat) :
  (0 < max_str_digits < d)%nat -> exceeds_limit max_str_digits d = true.
Proof.
  unfold exceeds_limit. intros [H0 Hd].
  apply andb_true_iff. split; apply Nat.ltb_lt; assumption.
Qed.

(** A number of at most [max_str_digits] digits is converted. *)
Lemma digits_within_limit (n : Z) :
  0 <= n ->
  max_str_digits = O \/ n < 10 ^ Z.of_nat max_str_digits ->
  exceeds_limit max_str_digits (String.length (Py.digits (Z.abs n))) = false.
Proof.
  intros Hn Hmax. rewrite Z.abs_eq by exact Hn.
  apply exceeds_limit_off.
  destruct Hmax as [H0|Hlt]; [left; exact H0|].
  destruct max_str_digits as [|k]; [left; reflexivity|right].
  apply length_digits_upper. lia.
Qed.

Lemma small_within_limit (n : Z) :
  max_str_digits = O \/ (limit_threshold <= max_str_digits)%nat ->
  0 <= n < 100 ->
  exceeds_limit max_str_digits (String.length (Py.digits (Z.abs n))) = false.
Proof.
  intros Hadm Hn. apply digits_within_limit; [lia|].
  destruct Hadm as [H0|Hthr]; [left; exact H0|right].
  apply Z.lt_le_trans with (10 ^ 2); [lia|].
  apply Z.pow_le_mono_r; unfold limit_threshold in Hthr; lia.
Qed.

(** Within the limit, [time_conversion2] returns what it returns without
    it. *)
Lemma time_conversion2_limited_ok (n : Z) :
  max_str_digits = O \/ (limit_threshold <= max_str_digits)%nat ->
  0 <= n ->
  max_str_digits = O \/ n / 600 < 10 ^ Z.of_nat max_str_digits ->
  time_conversion2_limited max_str_digits n = Ok (time_conversion2 n).
Proof.
  intros Hadm Hn Hmax.
  pose proof (seconds_range n) as Hs. pose proof (tenth_range n) as Ht.
  assert (Hm : 0 <= n / 600) by (apply Z.div_pos; lia).
  unfold time_conversion2_limited, time_conversion2,
    str_limited, format_0d_limited. cbv zeta.
  rewrite (digits_within_limit (n / 600)) by assumption.
  rewrite (small_within_limit ((n mod 600) / 10)) by (assumption || lia).
  rewrite (small_within_limit (n mod 10)) by (assumption || lia).
  destruct (n / 600 >? 0); reflexivity.
Qed.

(** Beyond the limit, the conversion of the minutes raises. *)
Lemma time_conversion2_limited_raises (n : Z) :
  (0 < max_str_digits)%nat ->
  10 ^ Z.of_nat max_str_digits <= n / 600 ->
  time_conversion2_limited max_str_digits n = Raise (ValueError msg_limit).
Proof.
  intros Hpos Hbig.
  assert (H0 : 0 < 10 ^ Z.of_nat max_str_digits)
    by (apply Z.pow_pos_nonneg; lia).
  unfold time_conversion2_limited, str_limited. cbv zeta.
  destruct (Z.gtb_spec (n / 600) 0) as [_|Hle]; [|lia].
  rewrite Z.abs_eq by lia.
  rewrite exceeds_limit_on; [reflexivity|].
  split; [exact Hpos|]. apply length_digits_lower. exact Hbig.
Qed.

End LimitLemmas.

(** C3, as stated: [time_conversion2] returns its string for every
    non-negative integer, never failing.  Under the default conversion limit
    of the interpreter it raises a [ValueError] once the minutes have more
    than 4300 digits, as for [600 * 10 ^ 4300]. *)
Lemma conversion_limit_reached :
  0 <= 600 * 10 ^ 4300
  /\ time_conversion2_limited default_max_str_digits (600 * 10 ^ 4300)
     = Raise (ValueError msg_limit)
  /\ ~ (forall n, 0 <= n ->
                  time_conversion2_limited default_max_str_digits n
                  = Ok (format_spec n)).
Proof.
  assert (Hpow : 0 < 10 ^ 4300) by (apply Z.pow_pos_nonneg; lia).
  assert (Hlimit : 10 ^ Z.of_nat default_max_str_digits = 10 ^ 4300)
    by reflexivity.
  remember (10 ^ 4300) as P eqn:HP.
  assert (Hraise : time_conversion2_limited default_max_str_digits (600 * P)
                   = Raise (ValueError msg_limit)).
  { apply time_conversion2_limited_raises.
    - apply Nat.lt_0_succ.
    - rewrite Z.mul_comm, Z.div_mul by discriminate.
      rewrite Hlimit. apply Z.le_refl. }
  clear HP Hlimit.
  split; [lia|]. split; [exact Hraise|].
  intros H. specialize (H (600 * P) ltac:(lia)).
  rewrite Hraise in H. discriminate H.
Qed.

(** C3, amended.  For a non-negative [n] whose minutes [n / 600] have no
    more digits than the conversion limit of the interpreter (4300 unless it
    is changed; any [n] when the limit is off), [time_conversion2] does not
    fail and returns the string of the specification: minutes [n / 600],
    seconds [(n mod 600) / 10] and tenths [n mod 10], written [minutes:SS.t]
    with two-digit seconds when minutes is positive and [seconds.t] without
    padding otherwise.  In particular 599 gives ["59.9"] and 0 gives
    ["0.0"]. *)
Theorem time_conversion2_within_limit :
  (forall max_str_digits n,
      max_str_digits = O \/ (limit_threshold <= max_str_digits)%nat ->
      0 <= n ->
      max_str_digits = O \/ n / 600 < 10 ^ Z.of_nat max_str_digits ->
      time_conversion2_limited max_str_digits n = Ok (format_spec n))
  /\ time_conversion2_limited default_max_str_digits 599 = Ok "59.9"
  /\ time_conversion2_limited default_max_str_digits 0 = Ok "0.0".
Proof.
  assert (Hgen : forall max_str_digits n,
      max_str_digits = O \/ (limit_threshold <= max_str_digits)%nat ->
      0 <= n ->
      max_str_digits = O \/ n / 600 < 10 ^ Z.of_nat max_str_digits ->
      time_conversion2_limited max_str_digits n = Ok (format_spec n)).
  { intros m n Hadm Hn Hmax.
    rewrite time_conversion2_limited_ok by assumption.
    rewrite time_conversion2_format_spec by exact Hn. reflexivity. }
  assert (Hdefault : forall n, 0 <= n < 600 ->
      default_max_str_digits = O
      \/ n / 600 < 10 ^ Z.of_nat default_max_str_digits).
  { intros n Hn. right. rewrite Z.div_small by lia.
    apply Z.pow_pos_nonneg; lia. }
  split; [exact Hgen|].
  split.
  - rewrite (Hgen default_max_str_digits 599);
      [reflexivity| right; apply Nat.leb_le; reflexivity
      | lia | apply Hdefault; lia].
  - rewrite (Hgen default_max_str_digits 0);
      [reflexivity| right; apply Nat.leb_le; reflexivity
      | lia | apply Hdefault; lia].
Qed.

Lemma time_conversion2_within_limit_witness :
  time_conversion2_limited default_max_str_digits 37534
  = Ok (format_spec 37534).
Proof.
  apply (proj1 time_conversion2_within_limit default_max_str_digits 37534).
  - right. apply Nat.leb_le. reflexivity.
  - lia.
  - right. apply Z.lt_le_trans with (10 ^ 2); [reflexivity|].
    apply Z.pow_le_mono_r; [lia|]. apply Z.leb_le. reflexivity.
Defined.

(** ** Strings of arbitrary code points *)

Section UnicodeLemmas.

Variable max_str_digits : nat.
Variable unicode_space : N -> bool.
Variable unicode_decimal : N -> option Z.

(** Under the limit [int] returns nothing it would not return without. *)
Lemma int_limited_parse (s : string) (v : Z) :
  int_limited max_str_digits s = Ok v -> Py.parse_int s = Some v.
Proof.
  unfold int_limited, Py.parse_int.
  destruct (Py.signed_literal (Py.lstrip s)) as [[v' rest]|]; [|discriminate].
  destruct (exceeds_limit _ _); [discriminate|].
  destruct (Py.all_space rest); [|discriminate].
  intros [= ->]. reflexivity.
Qed.

Lemma int_limited_cases (s : string) :
  (exists v, int_limited max_str_digits s = Ok v)
  \/ (exists msg, int_limited max_str_digits s = Raise (ValueError msg)).
Proof.
  unfold int_limited.
  destruct (Py.signed_literal (Py.lstrip s)) as [[v' rest]|];
    [|right; eexists; reflexivity].
  destruct (exceeds_limit _ _); [right; eexists; reflexivity|].
  destruct (Py.all_space rest);
    [left; eexists; reflexivity|right; eexists; reflexivity].
Qed.

Lemma transform_code_points (u : list N) :
  all_chars int_char (transform unicode_space unicode_decimal u) = true ->
  forallb (int_code_point unicode_space unicode_decimal) u = true.
Proof.
  induction u as [|ch r IH]; simpl; [reflexivity|].
  unfold int_code_point at 1.
  destruct (N.ltb_spec ch 127) as [Hlt|Hge].
  - simpl. rewrite andb_true_iff. intros [Hc Hr].
    destruct (N.ltb_spec ch 128); [|lia].
    rewrite Hc, IH by exact Hr. reflexivity.
  - destruct (N.leb_spec 127 ch); [|lia].
    destruct (unicode_space ch).
    + simpl. intros Hr. rewrite IH by exact Hr.
      rewrite orb_true_r. reflexivity.
    + destruct (unicode_decimal ch) as [d|].
      * simpl. rewrite andb_true_iff. intros [_ Hr].
        rewrite IH by exact Hr. rewrite !orb_true_r. reflexivity.
      * discriminate.
Qed.

Lemma ascii_code_points (u : list N) :
  is_ascii_string u = true ->
  all_chars int_char (ascii_of_codes u) = true ->
  forallb (int_code_point unicode_space unicode_decimal) u = true.
Proof.
  unfold is_ascii_string.
  induction u as [|ch r IH]; simpl; [reflexivity|].
  rewrite !andb_true_iff. intros [Hch Hr] [Hc Hrest].
  split; [|exact (IH Hr Hrest)].
  unfold int_code_point. rewrite Hch, Hc. reflexivity.
Qed.

(** What [int] reads is made of the code points it can read. *)
Lemma int_unicode_code_points (u : list N) (v : Z) :
  int_unicode max_str_digits unicode_space unicode_decimal u = Ok v ->
  forallb (int_code_point unicode_space unicode_decimal) u = true.
Proof.
  unfold int_unicode, to_ascii. intros H.
  apply int_limited_parse, parse_int_chars in H.
  destruct (is_ascii_string u) eqn:Hascii.
  - apply ascii_code_points; assumption.
  - apply transform_code_points. exact H.
Qed.

Lemma int_unicode_cases (u : list N) :
  (exists v, int_unicode max_str_digits unicode_space unicode_decimal u = Ok v)
  \/ (exists msg,
        int_unicode max_str_digits unicode_space unicode_decimal u
        = Raise (ValueError msg)).
Proof. apply int_limited_cases. Qed.

Lemma split_codes_all (P : N -> bool) (sep : N) (u : list N) :
  P sep = true ->
  Forall (fun piece => forallb P piece = true) (split_codes sep u) ->
  forallb P u = true.
Proof.
  intros Hsep. induction u as [|ch r IH]; simpl; [reflexivity|].
  destruct (N.eqb_spec ch sep) as [->|_].
  - intros H. inversion H; subst. rewrite Hsep. auto.
  - destruct (split_codes sep r) as [|h t].
    + intros H. inversion H as [|? ? Hc _]; subst. simpl in Hc.
      apply andb_true_iff in Hc. rewrite (proj1 Hc). auto.
    + intros H. inversion H as [|? ? Hc Ht]; subst. simpl in Hc.
      apply andb_true_iff in Hc. rewrite (proj1 Hc). simpl.
      apply IH. constructor; tauto.
Qed.

Lemma accepted_int_code_points (u : list N) :
  forallb (int_code_point unicode_space unicode_decimal) u = true ->
  forallb (accepted_code_point unicode_space unicode_decimal) u = true.
Proof.
  rewrite !forallb_forall. intros H ch Hin.
  unfold accepted_code_point. rewrite (H ch Hin). reflexivity.
Qed.

Lemma range_checks_cases (h m sec t : Z) :
  (exists n, range_checks h m sec t = Ok n)
  \/ (exists msg, range_checks h m sec t = Raise (ValueError msg)).
Proof.
  destruct (range_checks_valid h m sec t) as [[_ H]|[_ H]]; eauto.
Qed.

(** The end of the [try] block, from the last segment on. *)
Lemma last_segment_cases (h m : Z) (st : list N) :
  let rest :=
    ('(seconds_str, tenth_str) <- unpack2_codes (split_codes 46 st) ;;
     seconds <- int_unicode max_str_digits unicode_space unicode_decimal
                  seconds_str ;;
     tenth <- int_unicode max_str_digits unicode_space unicode_decimal
                tenth_str ;;
     range_checks h m seconds tenth) in
  (exists n,
      rest = Ok n
      /\ forallb (accepted_code_point unicode_space unicode_decimal) st
         = true)
  \/ (exists msg, rest = Raise (ValueError msg)).
Proof.
  cbv zeta.
  destruct (split_codes 46 st) as [|ss [|ts [|x l]]] eqn:Hsplit;
    cbn [unpack2_codes bind]; try (right; eexists; reflexivity).
  destruct (int_unicode_cases ss) as [[sec Hss]|[msg Hss]]; rewrite Hss;
    cbn [bind]; [|right; eexists; reflexivity].
  destruct (int_unicode_cases ts) as [[t Hts]|[msg Hts]]; rewrite Hts;
    cbn [bind]; [|right; eexists; reflexivity].
  destruct (range_checks_cases h m sec t) as [[n Hn]|[msg Hn]]; rewrite Hn;
    [|right; eexists; reflexivity].
  left. exists n. split; [reflexivity|].
  apply (split_codes_all _ 46); [reflexivity|]. rewrite Hsplit.
  repeat constructor;
    eauto using accepted_int_code_points, int_unicode_code_points.
Qed.

Lemma unicode_try_cases (u : list N) :
  let try := time_conversion_unicode_try max_str_digits unicode_space
               unicode_decimal u in
  (exists n,
      try = Ok n
      /\ forallb (accepted_code_point unicode_space unicode_decimal) u
         = true)
  \/ (exists msg, try = Raise (ValueError msg)).
Proof.
  cbv zeta. unfold time_conversion_unicode_try. cbv zeta.
  assert (Hall : forall leading st,
             split_codes 58 u = (leading ++ [st])%list ->
             Forall (fun p =>
                       exists v,
                         int_unicode max_str_digits unicode_space
                           unicode_decimal p = Ok v) leading ->
             forallb (accepted_code_point unicode_space unicode_decimal) st
             = true ->
             forallb (accepted_code_point unicode_space unicode_decimal) u
             = true).
  { intros leading st Hsplit Hlead Hst.
    apply (split_codes_all _ 58); [reflexivity|]. rewrite Hsplit.
    apply Forall_app. split; [|repeat constructor; exact Hst].
    eapply Forall_impl; [|exact Hlead]. cbv beta. intros p [v Hv].
    eauto using accepted_int_code_points, int_unicode_code_points. }
  destruct (split_codes 58 u) as [|a [|b [|c [|d l]]]] eqn:Hsplit;
    cbn [segments_unicode bind]; try (right; eexists; reflexivity).
  - destruct (last_segment_cases 0 0 a) as [(n & Hn & Ha)|[msg Hmsg]];
      cbv zeta in *.
    + left. exists n. split; [exact Hn|]. apply (Hall [] a); auto.
    + right. exists msg. exact Hmsg.
  - destruct (int_unicode_cases a) as [[m Ha]|[msg Ha]]; rewrite Ha;
      cbn [bind]; [|right; eexists; reflexivity].
    destruct (last_segment_cases 0 m b) as [(n & Hn & Hb)|[msg Hmsg]];
      cbv zeta in *.
    + left. exists n. split; [exact Hn|]. apply (Hall [a] b); eauto.
    + right. exists msg. exact Hmsg.
  - destruct (int_unicode_cases a) as [[h Ha]|[msg Ha]]; rewrite Ha;
      cbn [bind]; [|right; eexists; reflexivity].
    destruct (int_unicode_cases b) as [[m Hb]|[msg Hb]]; rewrite Hb;
      cbn [bind]; [|right; eexists; reflexivity].
    destruct (last_segment_cases h m c) as [(n & Hn & Hc)|[msg Hmsg]];
      cbv zeta in *.
    + left. exists n. split; [exact Hn|]. apply (Hall [a; b] c); eauto.
    + right. exists msg. exact Hmsg.
Qed.

End UnicodeLemmas.

(** C9, amended.  [time_conversion] accepts only strings made of ASCII
    digits, the separators [':'] and ['.'], the ASCII characters [int]
    tolerates (white space, ['+'], ['-'], ['_']) and, beyond ASCII, the code
    points Unicode classes as white space or as a decimal digit: every
    string with any other code point is rejected with the uniform error,
    whatever the conversion limit. *)
Theorem other_code_points_rejected
  (max_str_digits : nat) (unicode_space : N -> bool)
  (unicode_decimal : N -> option Z) (u : list N) :
  forallb (accepted_code_point unicode_space unicode_decimal) u = false ->
  time_conversion_unicode max_str_digits unicode_space unicode_decimal u
  = Raise (ValueError msg_uniform).
Proof.
  intros Hcp. unfold time_conversion_unicode.
  destruct (unicode_try_cases max_str_digits unicode_space unicode_decimal u)
    as [(n & _ & Hall)|[msg Hmsg]]; cbv zeta in *.
  - rewrite Hall in Hcp. discriminate Hcp.
  - rewrite Hmsg. reflexivity.
Qed.

Lemma other_code_points_rejected_witness :
  time_conversion_unicode default_max_str_digits
    (fun ch => (ch =? 160)%N)
    (fun ch => if ((1632 <=? ch) && (ch <=? 1641))%N
               then Some (Z.of_N ch - 1632) else None)
    [1637; 44; 1635]%N
  = Raise (ValueError msg_uniform).
Proof.
  apply (other_code_points_rejected default_max_str_digits
           (fun ch => (ch =? 160)%N)
           (fun ch => if ((1632 <=? ch) && (ch <=? 1641))%N
                      then Some (Z.of_N ch - 1632) else None)
           [1637; 44; 1635]%N).
  reflexivity.
Defined.

(** ** ASCII strings within the limit *)

Section PlainText.

Variable max_str_digits : nat.
Variable unicode_space : N -> bool.
Variable unicode_decimal : N -> option Z.

Lemma N_of_ascii_eqb (c d : ascii) :
  (N_of_ascii c =? N_of_ascii d)%N = Ascii.eqb c d.
Proof.
  destruct (Ascii.eqb_spec c d) as [->|Hne].
  - apply N.eqb_refl.
  - apply N.eqb_neq. intros H. apply Hne.
    rewrite <- (ascii_N_embedding c), <- (ascii_N_embedding d), H.
    reflexivity.
Qed.

Lemma split_codes_codes (sep : ascii) (s : string) :
  split_codes (N_of_ascii sep) (codes s) = map codes (Py.split sep s).
Proof.
  induction s as [|c s IH]; [reflexivity|].
  change (codes (String c s)) with (N_of_ascii c :: codes s).
  cbn [split_codes Py.split]. rewrite N_of_ascii_eqb, IH.
  destruct (Ascii.eqb c sep); [reflexivity|].
  destruct (Py.split sep s); reflexivity.
Qed.

Lemma to_ascii_codes (s : string) :
  is_ascii_text s = true ->
  to_ascii unicode_space unicode_decimal (codes s) = s.
Proof.
  intros Hs. unfold to_ascii.
  assert (Hascii : is_ascii_string (codes s) = true).
  { revert Hs. unfold is_ascii_text, is_ascii_string.
    induction s as [|c s IH]; [reflexivity|].
    change (codes (String c s)) with (N_of_ascii c :: codes s).
    simpl. rewrite !andb_true_iff. intros [Hc Hr]. auto. }
  rewrite Hascii. clear Hs Hascii.
  induction s as [|c s IH]; [reflexivity|].
  change (codes (String c s)) with (N_of_ascii c :: codes s).
  simpl. rewrite ascii_N_embedding. f_equal. exact IH.
Qed.

Lemma leading_digits_le (s : string) :
  (leading_digits s <= digit_count s)%nat.
Proof.
  induction s as [|c s IH]; simpl; [lia|].
  destruct (Py.is_digit c); [lia|].
  destruct (Py.is_underscore c); lia.
Qed.

Lemma digit_count_lstrip (s : string) :
  (digit_count (Py.lstrip s) <= digit_count s)%nat.
Proof.
  induction s as [|c s IH]; simpl; [lia|].
  destruct (Py.is_space c); simpl; destruct (Py.is_digit c); lia.
Qed.

Lemma digit_count_skip_sign (s : string) :
  (digit_count (skip_sign s) <= digit_count s)%nat.
Proof.
  destruct s as [|c s]; simpl; [lia|].
  destruct (Ascii.eqb c "+" || Ascii.eqb c "-"); simpl;
    destruct (Py.is_digit c); lia.
Qed.

(** Within the limit, [int] is [int] without the limit. *)
Lemma int_limited_int (s : string) :
  max_str_digits = O \/ (digit_count s <= max_str_digits)%nat ->
  int_limited max_str_digits s = Py.int s.
Proof.
  intros Hmax. unfold int_limited, Py.int, Py.parse_int.
  destruct (Py.signed_literal (Py.lstrip s)) as [[v rest]|]; [|reflexivity].
  rewrite exceeds_limit_off.
  - destruct (Py.all_space rest); reflexivity.
  - destruct Hmax as [H0|Hd]; [left; exact H0|right].
    pose proof (leading_digits_le (skip_sign (Py.lstrip s))).
    pose proof (digit_count_skip_sign (Py.lstrip s)).
    pose proof (digit_count_lstrip s). lia.
Qed.

Lemma int_unicode_codes (s : string) :
  plain_text max_str_digits s ->
  int_unicode max_str_digits unicode_space unicode_decimal (codes s)
  = Py.int s.
Proof.
  intros [Hascii Hmax]. unfold int_unicode.
  rewrite to_ascii_codes by exact Hascii. apply int_limited_int, Hmax.
Qed.

(** The pieces of a plain text are plain texts. *)
Lemma split_plain (sep : ascii) (s : string) :
  plain_text max_str_digits s ->
  Forall (plain_text max_str_digits) (Py.split sep s).
Proof.
  intros [Hascii Hmax].
  assert (Hpieces : Forall (fun p => is_ascii_text p = true
                                     /\ (digit_count p <= digit_count s)%nat)
                           (Py.split sep s)).
  { clear Hmax. revert Hascii. unfold is_ascii_text.
    induction s as [|c s IH]; simpl.
    - intros _. repeat constructor.
    - rewrite andb_true_iff. intros [Hc Hs]. specialize (IH Hs).
      destruct (Ascii.eqb c sep).
      + constructor; [split; [reflexivity|simpl; lia]|].
        eapply Forall_impl; [|exact IH]. cbv beta. intros p [Hp Hd].
        split; [exact Hp|]. destruct (Py.is_digit c); lia.
      + destruct (Py.split sep s) as [|h t].
        * constructor; [|constructor]. simpl. rewrite Hc.
          split; [reflexivity|]. destruct (Py.is_digit c); lia.
        * inversion IH as [|? ? [Hh Hdh] Ht]; subst.
          constructor.
          -- simpl. rewrite Hc, Hh. split; [reflexivity|].
             destruct (Py.is_digit c); lia.
          -- eapply Forall_impl; [|exact Ht]. cbv beta. intros p [Hp Hd].
             split; [exact Hp|]. destruct (Py.is_digit c); lia. }
  eapply Forall_impl; [|exact Hpieces]. cbv beta. intros p [Hp Hd].
  split; [exact Hp|]. destruct Hmax as [H0|Hm]; [left; exact H0|right; lia].
Qed.

(** On a plain text, [time_conversion] on code points is [time_conversion]
    on the 8-bit string. *)
Lemma time_conversion_unicode_codes (s : string) :
  plain_text max_str_digits s ->
  time_conversion_unicode max_str_digits unicode_space unicode_decimal
    (codes s)
  = time_conversion s.
Proof.
  intros Hs.
  enough (Htry : time_conversion_unicode_try max_str_digits unicode_space
                   unicode_decimal (codes s)
                 = time_conversion_try s)
    by (unfold time_conversion_unicode, time_conversion; rewrite Htry;
        reflexivity).
  unfold time_conversion_unicode_try, time_conversion_try. cbv zeta.
  assert (Hlast : forall h m st,
    plain_text max_str_digits st ->
    ('(seconds_str, tenth_str)
       <- unpack2_codes (split_codes 46 (codes st)) ;;
     seconds <- int_unicode max_str_digits unicode_space unicode_decimal
                  seconds_str ;;
     tenth <- int_unicode max_str_digits unicode_space unicode_decimal
                tenth_str ;;
     range_checks h m seconds tenth)
    = ('(seconds_str, tenth_str) <- Py.unpack2 (Py.split "." st) ;;
       seconds <- Py.int seconds_str ;;
       tenth <- Py.int tenth_str ;;
       range_checks h m seconds tenth)).
  { intros h m st Hst. pose proof (split_plain "." st Hst) as Hp.
    change 46%N with (N_of_ascii "."). rewrite split_codes_codes.
    destruct (Py.split "." st) as [|ss [|ts [|x l]]]; try reflexivity.
    inversion Hp as [|? ? Hss Hp']; subst.
    inversion Hp' as [|? ? Hts _]; subst.
    cbn [map unpack2_codes Py.unpack2 bind].
    rewrite (int_unicode_codes ss Hss), (int_unicode_codes ts Hts).
    reflexivity. }
  pose proof (split_plain ":" s Hs) as Hp.
  change 58%N with (N_of_ascii ":"). rewrite split_codes_codes.
  destruct (Py.split ":" s) as [|a [|b [|c [|d l]]]]; try reflexivity.
  - inversion Hp as [|? ? Ha _]; subst.
    cbn [map segments_unicode segments bind]. exact (Hlast 0 0 a Ha).
  - inversion Hp as [|? ? Ha Hp']; subst.
    inversion Hp' as [|? ? Hb _]; subst.
    cbn [map segments_unicode segments].
    rewrite (int_unicode_codes a Ha).
    destruct (Py.int a) as [m|e]; cbn [bind];
      [exact (Hlast 0 m b Hb)|reflexivity].
  - inversion Hp as [|? ? Ha Hp']; subst.
    inversion Hp' as [|? ? Hb Hp'']; subst.
    inversion Hp'' as [|? ? Hc _]; subst.
    cbn [map segments_unicode segments].
    rewrite (int_unicode_codes a Ha), (int_unicode_codes b Hb).
    destruct (Py.int a) as [h|e]; cbn [bind]; [|reflexivity].
    destruct (Py.int b) as [m|e]; cbn [bind];
      [exact (Hlast h m c Hc)|reflexivity].
Qed.

End PlainText.

Section NumeralTexts.

Lemma digit_count_app (a b : string) :
  digit_count (a ++ b) = (digit_count a + digit_count b)%nat.
Proof.
  induction a as [|c a IH]; simpl; [reflexivity|].
  rewrite IH. destruct (Py.is_digit c); reflexivity.
Qed.

Lemma digit_count_digits (x : string) :
  all_chars Py.is_digit x = true -> digit_count x = String.length x.
Proof.
  induction x as [|c x IH]; simpl; [reflexivity|].
  rewrite andb_true_iff. intros [-> Hx]. rewrite IH by exact Hx. reflexivity.
Qed.

Lemma ascii_digits (x : string) :
  all_chars Py.is_digit x = true -> is_ascii_text x = true.
Proof.
  apply all_chars_impl. intros c Hc. apply is_digit_spec in Hc.
  unfold Py.ord in Hc. apply N.ltb_lt. lia.
Qed.

Lemma length_zeros (k : nat) : String.length (Py.zeros k) = k.
Proof.
  induction k as [|k IH]; simpl; [reflexivity|]. rewrite IH. reflexivity.
Qed.

Lemma length_str_small (n : Z) :
  0 <= n < 100 -> (String.length (Py.str n) <= 2)%nat.
Proof.
  intros Hn. rewrite str_unpadded by exact Hn. unfold unpadded.
  destruct (n <? 10); simpl; lia.
Qed.

(** The text [a.b] of two numerals. *)
Lemma dotted_plain (max_str_digits : nat) (a b : string) :
  all_chars Py.is_digit a = true -> all_chars Py.is_digit b = true ->
  max_str_digits = O
  \/ (String.length a + String.length b <= max_str_digits)%nat ->
  plain_text max_str_digits (a ++ "." ++ b).
Proof.
  intros Ha Hb Hmax. change ("." ++ b) with (String "." b). split.
  - unfold is_ascii_text. rewrite all_chars_app. cbn [all_chars].
    fold (is_ascii_text a). fold (is_ascii_text b).
    rewrite !ascii_digits by assumption. reflexivity.
  - destruct Hmax as [H0|Hlen]; [left; exact H0|right].
    rewrite digit_count_app. cbn [digit_count].
    change (Py.is_digit ".") with false. cbv iota.
    rewrite !digit_count_digits by assumption. exact Hlen.
Qed.

(** The text [a:b] of a numeral and a plain text. *)
Lemma colon_plain (max_str_digits : nat) (a b : string) :
  all_chars Py.is_digit a = true ->
  is_ascii_text b = true ->
  max_str_digits = O
  \/ (String.length a + digit_count b <= max_str_digits)%nat ->
  plain_text max_str_digits (a ++ ":" ++ b).
Proof.
  intros Ha Hb Hmax. change (":" ++ b) with (String ":" b). split.
  - unfold is_ascii_text. rewrite all_chars_app. cbn [all_chars].
    fold (is_ascii_text a). fold (is_ascii_text b).
    rewrite ascii_digits, Hb by assumption. reflexivity.
  - destruct Hmax as [H0|Hlen]; [left; exact H0|right].
    rewrite digit_count_app. cbn [digit_count].
    change (Py.is_digit ":") with false. cbv iota.
    rewrite digit_count_digits by assumption. exact Hlen.
Qed.

End NumeralTexts.

(** X2.  Zero padding of a field is ignored: the seconds and tenths written
    with leading zeros are read as their values, as long as the string holds
    no more digits than the conversion limit.  A fraction such as [05] is
    therefore read as 5 tenths, not as 5 hundredths. *)
Theorem zero_padding_ignored
  (max_str_digits : nat) (unicode_space : N -> bool)
  (unicode_decimal : N -> option Z) (k1 k2 : nat) (sec t : Z) :
  max_str_digits = O \/ (k1 + k2 + 3 <= max_str_digits)%nat ->
  0 <= sec < 60 -> 0 <= t < 10 ->
  time_conversion_unicode max_str_digits unicode_space unicode_decimal
    (codes ((Py.zeros k1 ++ Py.str sec) ++ "."
            ++ (Py.zeros k2 ++ Py.str t)))
  = Ok (sec * 10 + t).
Proof.
  intros Hmax Hs Ht.
  assert (Hsd : all_chars Py.is_digit (Py.zeros k1 ++ Py.str sec) = true).
  { rewrite all_chars_app, all_chars_zeros, str_all_digits by lia.
    reflexivity. }
  assert (Htd : all_chars Py.is_digit (Py.zeros k2 ++ Py.str t) = true).
  { rewrite all_chars_app, all_chars_zeros, str_all_digits by lia.
    reflexivity. }
  rewrite time_conversion_unicode_codes.
  - apply (one_text_accepted _ _ sec t); try assumption.
    + unfold Py.str. destruct (Z.ltb_spec sec 0); [lia|].
      apply parse_int_zeros_digits. lia.
    + unfold Py.str. destruct (Z.ltb_spec t 0); [lia|].
      apply parse_int_zeros_digits. lia.
  - apply dotted_plain; try assumption.
    destruct Hmax as [H0|Hlen]; [left; exact H0|right].
    rewrite !length_append, !length_zeros.
    pose proof (length_str_small sec ltac:(lia)).
    assert (String.length (Py.str t) <= 1)%nat
      by (rewrite str_small by exact Ht; simpl; lia).
    lia.
Qed.

Lemma zero_padding_ignored_witness :
  time_conversion_unicode default_max_str_digits
    (fun _ => false) (fun _ => None)
    (codes ((Py.zeros 1 ++ Py.str 1) ++ "." ++ (Py.zeros 1 ++ Py.str 5)))
  = Ok (1 * 10 + 5).
Proof.
  apply (zero_padding_ignored default_max_str_digits
           (fun _ => false) (fun _ => None) 1 1 1 5); [|lia|lia].
  right. apply Nat.leb_le. reflexivity.
Defined.

(** X3.  Every non-negative integer is the value of an accepted string, as
    far as the conversion limit lets its digits be read: written with an
    hours segment, as [H:MM:SS.T] with [H = n / 36000], it is read back as
    [n], also from one hour on, where the output of [time_conversion2] is
    rejected.  With a limit of [max_str_digits] digits this holds for the
    hours values below [10 ^ (max_str_digits - 5)]; without a limit, for
    every [n]. *)
Theorem hours_form_read_back
  (max_str_digits : nat) (unicode_space : N -> bool)
  (unicode_decimal : N -> option Z) (n : Z) :
  0 <= n ->
  max_str_digits = O
  \/ ((limit_threshold <= max_str_digits)%nat
      /\ n / 36000 < 10 ^ (Z.of_nat max_str_digits - 5)) ->
  time_conversion_unicode max_str_digits unicode_space unicode_decimal
    (codes (Py.str (n / 36000) ++ ":"
            ++ Py.format_0d 2 ((n mod 36000) / 600) ++ ":"
            ++ Py.format_0d 2 ((n mod 600) / 10) ++ "."
            ++ Py.str (n mod 10)))
  = Ok n.
Proof.
  intros Hn Hmax.
  assert (Hh : 0 <= n / 36000) by (apply Z.div_pos; lia).
  assert (Hm : 0 <= (n mod 36000) / 600 < 60)
    by (Z.to_euclidean_division_equations; lia).
  pose proof (seconds_range n) as Hs. pose proof (tenth_range n) as Ht.
  assert (Hlen2 : forall x, 0 <= x < 60 ->
                            String.length (Py.format_0d 2 x) = 2%nat).
  { intros x Hx. rewrite format_02d_two_digits by lia. reflexivity. }
  assert (Hlen1 : String.length (Py.str (n mod 10)) = 1%nat)
    by (rewrite str_small by exact Ht; reflexivity).
  assert (Hhours : max_str_digits = O
                   \/ (String.length (Py.str (n / 36000)) + 5
                       <= max_str_digits)%nat).
  { destruct Hmax as [H0|[Hthr Hlt]]; [left; exact H0|right].
    unfold limit_threshold in Hthr.
    unfold Py.str. destruct (Z.ltb_spec (n / 36000) 0); [lia|].
    pose proof (length_digits_upper (max_str_digits - 6) (n / 36000)) as Hup.
    replace (Z.of_nat (S (max_str_digits - 6)))
      with (Z.of_nat max_str_digits - 5) in Hup by lia.
    specialize (Hup (conj Hh Hlt)). lia. }
  rewrite time_conversion_unicode_codes.
  - rewrite (three_texts_accepted _ _ _ _ (n / 36000) ((n mod 36000) / 600)
               ((n mod 600) / 10) (n mod 10));
      try assumption;
      try apply parse_int_str; try (apply parse_int_format_0d; lia).
    f_equal. Z.to_euclidean_division_equations. lia.
  - assert (Hlast : plain_text max_str_digits
                      (Py.format_0d 2 ((n mod 600) / 10) ++ "."
                       ++ Py.str (n mod 10))).
    { apply dotted_plain;
        [apply format_0d_all_digits; lia|apply str_all_digits; lia|].
      destruct Hhours as [H0|Hlen]; [left; exact H0|right].
      rewrite Hlen2, Hlen1 by exact Hs. lia. }
    assert (Hmid : plain_text max_str_digits
                     (Py.format_0d 2 ((n mod 36000) / 600) ++ ":"
                      ++ Py.format_0d 2 ((n mod 600) / 10) ++ "."
                      ++ Py.str (n mod 10))).
    { destruct Hlast as [Hascii Hcount].
      apply colon_plain;
        [apply format_0d_all_digits; lia|exact Hascii|].
      destruct Hhours as [H0|Hlen]; [left; exact H0|right].
      rewrite Hlen2 by exact Hm.
      change ("." ++ Py.str (n mod 10)) with (String "." (Py.str (n mod 10))).
      rewrite digit_count_app. cbn [digit_count].
      change (Py.is_digit ".") with false. cbv iota.
      rewrite !digit_count_digits
        by (first [apply format_0d_all_digits; lia|apply str_all_digits; lia]).
      rewrite Hlen2, Hlen1 by exact Hs. lia. }
    destruct Hmid as [Hascii Hcount].
    apply colon_plain; [apply str_all_digits; exact Hh|exact Hascii|].
    destruct Hhours as [H0|Hlen]; [left; exact H0|right].
    change (":" ++ ?x) with (String ":" x).
    change ("." ++ ?x) with (String "." x).
    rewrite digit_count_app. cbn [digit_count].
    change (Py.is_digit ":") with false. cbv iota.
    rewrite digit_count_app. cbn [digit_count].
    change (Py.is_digit ".") with false. cbv iota.
    rewrite !digit_count_digits
      by (first [apply format_0d_all_digits; lia|apply str_all_digits; lia]).
    rewrite !Hlen2, Hlen1 by assumption. lia.
Qed.

Lemma hours_form_read_back_witness :
  time_conversion_unicode default_max_str_digits
    (fun _ => false) (fun _ => None)
    (codes (Py.str (37534 / 36000) ++ ":"
            ++ Py.format_0d 2 ((37534 mod 36000) / 600) ++ ":"
            ++ Py.format_0d 2 ((37534 mod 600) / 10) ++ "."
            ++ Py.str (37534 mod 10)))
  = Ok 37534.
Proof.
  apply (hours_form_read_back default_max_str_digits
           (fun _ => false) (fun _ => None) 37534); [lia|].
  right. split; [apply Nat.leb_le; reflexivity|].
  apply Z.lt_le_trans with (10 ^ 1); [reflexivity|].
  apply Z.pow_le_mono_r; [lia|]. apply Z.leb_le. reflexivity.
Defined.
